(** * Session-state handling of [f5.Lb] (lb.py)

    A shallow embedding of the decorators and session properties of the
    load-balancer session class: the folder / recursive-query / transaction
    properties, the three scoping decorators and the pool-member cache.

    Python methods become computations in a state-and-exception monad over
    the session object, the remote endpoint and the trace of remote calls
    issued so far.  The endpoint itself (bigsuds' [System.Session] and
    [System.SystemInfo] proxies) is a parameter of the development. *)

From stdpp Require Import gmap strings list.
From Stdlib Require Import ZArith DecimalString.

(** ** Python values and exceptions *)

(** The part of Python's value universe that reaches the code below.  A
    tuple is its items together with the text [str()] gives for it;
    Python builds that text from the [repr] of the items, which is not
    computed here, so every tuple of Python is one of these values. *)
#[warnings="-register-all"]
Inductive PyVal : Type :=
| PyNone
| PyBool (b : bool)
| PyInt (z : Z)
| PyStr (s : string)
| PyTuple (items : list PyVal) (text : string).

(** Python's [==] on these values; [bool] is a subclass of [int], so
    [True == 1] and [False == 0] hold; tuples are compared item by
    item. *)
Fixpoint py_eq (a b : PyVal) {struct a} : bool :=
  match a, b with
  | PyNone, PyNone => true
  | PyBool x, PyBool y => Bool.eqb x y
  | PyBool x, PyInt z => Z.eqb (Z.b2z x) z
  | PyInt z, PyBool x => Z.eqb z (Z.b2z x)
  | PyInt x, PyInt y => Z.eqb x y
  | PyStr x, PyStr y => String.eqb x y
  | PyTuple xs _, PyTuple ys _ =>
      (fix all_eq (xs ys : list PyVal) {struct xs} : bool :=
         match xs, ys with
         | [], [] => true
         | x :: xs', y :: ys' => py_eq x y && all_eq xs' ys'
         | _, _ => false
         end) xs ys
  | _, _ => false
  end.

(** [str(v)], as used by the ['%s'] conversion. *)
Definition py_str (v : PyVal) : string :=
  match v with
  | PyNone => "None"
  | PyBool true => "True"
  | PyBool false => "False"
  | PyInt z => NilZero.string_of_int (Z.to_int z)
  | PyStr s => s
  | PyTuple _ text => text
  end.

(** [needle in hay] on strings. *)
Fixpoint str_in (needle hay : string) : bool :=
  String.prefix needle hay ||
  match hay with
  | EmptyString => false
  | String _ rest => str_in needle rest
  end.

(** The exceptions that occur.  [ServerError] is bigsuds' remote fault and
    carries [e.message]; [TypeError] is what the interpreter raises for an
    unsupported operand (its text depends on the interpreter);
    [OtherError] stands for any further exception class. *)
Inductive exn : Type :=
| ServerError (message : string)
| UnsupportedF5Version (msg version : string)
| RuntimeError (msg : string)
| ValueError (msg : string)
| TypeError
| OtherError (name : string).

Inductive result (A : Type) : Type :=
| Ok (a : A)
| Raise (e : exn).
Arguments Ok {A} a.
Arguments Raise {A} e.

(** [prefix_with_one_%s % (value)].  The parentheses around [value] do
    not build a tuple, so when [value] itself is a tuple the [%] operator
    takes it as the list of arguments: a 1-tuple has its item formatted,
    and a tuple of any other length does not fit the single [%s] and
    raises TypeError. *)
Definition format_value (prefix : string) (value : PyVal) : result string :=
  match value with
  | PyTuple [item] _ => Ok (prefix +:+ py_str item)
  | PyTuple _ _ => Raise TypeError
  | _ => Ok (prefix +:+ py_str value)
  end.

(** ** The remote endpoint *)

(** One constructor per remote procedure used by lb.py. *)
Inductive Call : Type :=
| GetVersion
| GetActiveFolder
| SetActiveFolder (folder : string)
| GetRecursiveQueryState
| SetRecursiveQueryState (state : string)
| StartTransaction
| SubmitTransaction
| RollbackTransaction
| GetTransactionTimeout
| SetTransactionTimeout (value : Z).

Global Instance Call_eq_dec : EqDecision Call.
Proof. solve_decision. Defined.

(** [self._transport]: every procedure answers or raises, and moves the
    appliance to a new state. *)
Record Transport (R : Type) : Type := {
  wsdl_get_version : R -> result string * R;
  wsdl_get_active_folder : R -> result string * R;
  wsdl_set_active_folder : string -> R -> result unit * R;
  wsdl_get_recursive_query_state : R -> result string * R;
  wsdl_set_recursive_query_state : string -> R -> result unit * R;
  wsdl_start_transaction : R -> result unit * R;
  wsdl_submit_transaction : R -> result unit * R;
  wsdl_rollback_transaction : R -> result unit * R;
  wsdl_get_transaction_timeout : R -> result Z * R;
  wsdl_set_transaction_timeout : Z -> R -> result unit * R
}.
Arguments wsdl_get_version {R}.
Arguments wsdl_get_active_folder {R}.
Arguments wsdl_set_active_folder {R}.
Arguments wsdl_get_recursive_query_state {R}.
Arguments wsdl_set_recursive_query_state {R}.
Arguments wsdl_start_transaction {R}.
Arguments wsdl_submit_transaction {R}.
Arguments wsdl_rollback_transaction {R}.
Arguments wsdl_get_transaction_timeout {R}.
Arguments wsdl_set_transaction_timeout {R}.

(** ** The session object *)

(** The attributes [Lb.__init__] binds. *)
Record Lb : Type := {
  _host : string;
  _username : string;
  _versioncheck : bool;
  _active_folder : string;
  _recursive_query : PyVal;
  _transaction : bool;
  _transaction_timeout : Z
}.

(** The object before [__init__] has bound anything; no method below reads
    an attribute of it before assigning that attribute. *)
Definition unbound : Lb :=
  {| _host := ""; _username := ""; _versioncheck := false;
     _active_folder := ""; _recursive_query := PyNone;
     _transaction := false; _transaction_timeout := 0 |}.

Definition with_active_folder (v : string) (o : Lb) : Lb :=
  {| _host := _host o; _username := _username o;
     _versioncheck := _versioncheck o;
     _active_folder := v; _recursive_query := _recursive_query o;
     _transaction := _transaction o;
     _transaction_timeout := _transaction_timeout o |}.

Definition with_recursive_query (v : PyVal) (o : Lb) : Lb :=
  {| _host := _host o; _username := _username o;
     _versioncheck := _versioncheck o;
     _active_folder := _active_folder o; _recursive_query := v;
     _transaction := _transaction o;
     _transaction_timeout := _transaction_timeout o |}.

Definition with_transaction (v : bool) (o : Lb) : Lb :=
  {| _host := _host o; _username := _username o;
     _versioncheck := _versioncheck o;
     _active_folder := _active_folder o;
     _recursive_query := _recursive_query o;
     _transaction := v;
     _transaction_timeout := _transaction_timeout o |}.

Definition with_transaction_timeout (v : Z) (o : Lb) : Lb :=
  {| _host := _host o; _username := _username o;
     _versioncheck := _versioncheck o;
     _active_folder := _active_folder o;
     _recursive_query := _recursive_query o;
     _transaction := _transaction o;
     _transaction_timeout := v |}.

Definition with_credentials (host username : string) (versioncheck : bool)
    (o : Lb) : Lb :=
  {| _host := host; _username := username; _versioncheck := versioncheck;
     _active_folder := _active_folder o;
     _recursive_query := _recursive_query o;
     _transaction := _transaction o;
     _transaction_timeout := _transaction_timeout o |}.

(** ** The monad of methods *)

(** What a running method sees: the object, the appliance behind the
    transport, and the remote calls issued so far (oldest first). *)
Record St (R : Type) : Type := mkSt {
  self : Lb;
  remote : R;
  trace : list Call
}.
Arguments mkSt {R}.
Arguments self {R}.
Arguments remote {R}.
Arguments trace {R}.

(** A method body: it ends with a value or a raised exception; the
    mutations made before a raise stay. *)
Definition M (R A : Type) : Type := St R -> result A * St R.

Definition ret {R A} (a : A) : M R A := fun s => (Ok a, s).

Definition raise {R A} (e : exn) : M R A := fun s => (Raise e, s).

Definition bind {R A B} (m : M R A) (k : A -> M R B) : M R B :=
  fun s =>
    match m s with
    | (Ok a, s') => k a s'
    | (Raise e, s') => (Raise e, s')
    end.

(** [try: body / except: handler]; the handler receives the exception. *)
Definition try_except {R A} (body : M R A) (handler : exn -> M R A)
    : M R A :=
  fun s =>
    match body s with
    | (Ok a, s') => (Ok a, s')
    | (Raise e, s') => handler e s'
    end.

Definition get_self {R} : M R Lb := fun s => (Ok (self s), s).

Definition assign {R} (f : Lb -> Lb) : M R unit :=
  fun s => (Ok tt, mkSt (f (self s)) (remote s) (trace s)).

(** A remote procedure call: logged, then answered by the appliance. *)
Definition invoke {R A} (c : Call) (proc : R -> result A * R) : M R A :=
  fun s =>
    let (r, remote') := proc (remote s) in
    (r, mkSt (self s) remote' (trace s ++ [c])).

Declare Scope py_scope.
Delimit Scope py_scope with py.
Notation "x <- m ;; k" := (bind m (fun x => k))
  (at level 100, m at next level, right associativity) : py_scope.
Notation "m ;;; k" := (bind m (fun _ => k))
  (at level 100, right associativity) : py_scope.
Notation "'when' c 'do' m" := (if c then m else ret tt)
  (at level 100, c at level 99, right associativity) : py_scope.

Local Open Scope py_scope.

(** ** Methods of [Lb] and the decorators *)

Section Session.

Context {R : Type} (T : Transport R).

(** *** Internal API: session methods *)

Definition _ensure_transaction : M R unit :=
  try_except
    (invoke StartTransaction (wsdl_start_transaction T))
    (fun e =>
       match e with
       | ServerError message =>
           if str_in "Only one transaction can be open at any time" message
           then ret tt
           else raise e
       | _ => raise e
       end).

Definition _ensure_no_transaction : M R unit :=
  try_except
    (invoke RollbackTransaction (wsdl_rollback_transaction T))
    (fun e =>
       match e with
       | ServerError message =>
           if str_in "No transaction is open to roll back." message
           then ret tt
           else raise e
       | _ => raise e
       end).

Definition _submit_transaction : M R unit :=
  invoke SubmitTransaction (wsdl_submit_transaction T).

Definition _rollback_transaction : M R unit :=
  invoke RollbackTransaction (wsdl_rollback_transaction T).

Definition _get_transaction_timeout : M R Z :=
  invoke GetTransactionTimeout (wsdl_get_transaction_timeout T).

Definition _set_transaction_timeout (value : Z) : M R unit :=
  invoke (SetTransactionTimeout value) (wsdl_set_transaction_timeout T value).

(** The probe: the only way to learn whether a transaction is open is to
    try to start one. *)
Definition _active_transaction : M R bool :=
  bind
    (try_except
       (invoke StartTransaction (wsdl_start_transaction T) ;;; ret None)
       (fun e =>
          match e with
          | ServerError message =>
              if str_in "Only one transaction can be open at any time" message
              then ret (Some true)
              else raise e
          | _ => raise e
          end))
    (fun returned =>
       match returned with
       | Some b => ret b
       | None =>
           invoke RollbackTransaction (wsdl_rollback_transaction T) ;;;
           ret false
       end).

Definition _get_active_folder : M R string :=
  invoke GetActiveFolder (wsdl_get_active_folder T).

Definition _set_active_folder (folder : string) : M R unit :=
  invoke (SetActiveFolder folder) (wsdl_set_active_folder T folder).

Definition _get_recursive_query_state : M R string :=
  invoke GetRecursiveQueryState (wsdl_get_recursive_query_state T).

Definition _set_recursive_query_state (state : string) : M R unit :=
  invoke (SetRecursiveQueryState state)
         (wsdl_set_recursive_query_state T state).

(** *** Properties *)

Definition active_folder_getter : M R string :=
  v <- _get_active_folder ;;
  assign (with_active_folder v) ;;;
  o <- get_self ;;
  ret (_active_folder o).

Definition active_folder_setter (value : string) : M R unit :=
  _set_active_folder value ;;;
  assign (with_active_folder value).

(** In the last branch the source writes
    [raise RuntimeError('...') % (recursive_query_state)]: the operand of
    [raise] is the expression [RuntimeError(...) % state], and evaluating
    [%] on an exception object and a string raises [TypeError]; no
    [RuntimeError] is ever raised. *)
Definition recursive_query_getter : M R PyVal :=
  recursive_query_state <- _get_recursive_query_state ;;
  (if String.eqb recursive_query_state "STATE_ENABLED"
   then assign (with_recursive_query (PyBool true))
   else if String.eqb recursive_query_state "STATE_DISABLED"
   then assign (with_recursive_query (PyBool false))
   else raise TypeError) ;;;
  o <- get_self ;;
  ret (_recursive_query o).

Definition recursive_query_setter (value : PyVal) : M R unit :=
  recursive_query_state <-
    (if py_eq value (PyBool true) then ret "STATE_ENABLED"
     else if py_eq value (PyBool false) then ret "STATE_DISABLED"
     else match format_value
                  "recursive_query must be one of True/False, not " value
          with
          | Ok message => raise (ValueError message)
          | Raise e => raise e
          end) ;;
  _set_recursive_query_state recursive_query_state ;;;
  assign (with_recursive_query value).

Definition transaction_getter : M R bool :=
  v <- _active_transaction ;;
  assign (with_transaction v) ;;;
  o <- get_self ;;
  ret (_transaction o).

Definition transaction_setter (value : PyVal) : M R unit :=
  if py_eq value (PyBool true)
  then _ensure_transaction ;;; assign (with_transaction true)
  else if py_eq value (PyBool false)
  then _ensure_no_transaction ;;; assign (with_transaction false)
  else ret tt.

Definition transaction_timeout_getter : M R Z :=
  v <- _get_transaction_timeout ;;
  assign (with_transaction_timeout v) ;;;
  o <- get_self ;;
  ret (_transaction_timeout o).

Definition transaction_timeout_setter (value : Z) : M R unit :=
  _set_transaction_timeout value ;;;
  assign (with_transaction_timeout value).

(** *** Construction *)

(** [bigsuds.BIGIP(host, username, password)] only builds the proxy; the
    first remote call of the constructor is [get_version]. *)
Definition __init__ (host username password : string)
    (versioncheck : bool) : M R unit :=
  assign (with_credentials host username versioncheck) ;;;
  version <- invoke GetVersion (wsdl_get_version T) ;;
  if versioncheck && negb (str_in "BIG-IP_v11" version)
  then raise (UnsupportedF5Version
                "This class only supports BIG-IP v11" version)
  else
    v1 <- active_folder_getter ;;
    assign (with_active_folder v1) ;;;
    v2 <- recursive_query_getter ;;
    assign (with_recursive_query v2) ;;;
    v3 <- transaction_getter ;;
    assign (with_transaction v3) ;;;
    v4 <- transaction_timeout_getter ;;
    assign (with_transaction_timeout v4).

(** [Lb(host, username, password, versioncheck)] against an appliance in
    state [r]. *)
Definition Lb_new (host username password : string) (versioncheck : bool)
    (r : R) : result unit * St R :=
  __init__ host username password versioncheck (mkSt unbound r []).

(** *** Decorators *)

(** A decorated method, with [self] and its arguments already supplied, is
    a computation returning a Python value. *)

Definition restore_session_values (func : M R PyVal) : M R PyVal :=
  o <- get_self ;;
  let original_folder := _active_folder o in
  let original_recursive_query := _recursive_query o in
  func_ret <- func ;;
  o1 <- get_self ;;
  (when negb (String.eqb (_active_folder o1) original_folder)
   do active_folder_setter original_folder) ;;;
  o2 <- get_self ;;
  (when negb (py_eq (_recursive_query o2) original_recursive_query)
   do recursive_query_setter original_recursive_query) ;;;
  ret func_ret.

Definition recursivereader (func : M R PyVal) : M R PyVal :=
  restore_session_values
    (o <- get_self ;;
     (when negb (String.eqb (_active_folder o) "/")
      do active_folder_setter "/") ;;;
     o1 <- get_self ;;
     (when negb (py_eq (_recursive_query o1) (PyBool true))
      do recursive_query_setter (PyBool true)) ;;;
     func).

(** The [return func(...)] of the source is indented under the [if]: when
    the folder is not ['/'] the inner wrapper falls off its end and
    returns [None]. *)
Definition writer (func : M R PyVal) : M R PyVal :=
  restore_session_values
    (o <- get_self ;;
     if String.eqb (_active_folder o) "/"
     then active_folder_setter "/Common" ;;; func
     else ret PyNone).

(** The closure [wrapper] built inside the [transaction] decorator.  The
    bare [except:] catches every exception of the body; control then
    reaches the statements after the [try], and the function ends without
    a [return]. *)
Definition transaction_wrapper (func : M R PyVal) : M R PyVal :=
  t <- transaction_getter ;;
  let our_transaction := negb t in
  (when our_transaction do transaction_setter (PyBool true)) ;;;
  try_except
    (func_ret <- func ;; ret tt)
    (fun _ =>
       try_except
         (when our_transaction do transaction_setter (PyBool false))
         (fun _ => ret tt)) ;;;
  (when our_transaction do _submit_transaction) ;;;
  ret PyNone.

(** The decorator itself: unlike its three siblings it has no
    [return wrapper], so the decorated name is bound to [None]. *)
Definition transaction (func : M R PyVal) : option (M R PyVal) :=
  let wrapper := transaction_wrapper func in
  None.

(** *** Public API *)

Definition submit_transaction : M R unit := _submit_transaction.

End Session.

(** ** The pool-member cache *)

(** What the cache code reads of a pool member: [pm.node.name], [pm.port]
    and [pm.pool.name]. *)
Record Node : Type := { node_name : string }.
Record Pool : Type := { pool_name : string }.
Record PoolMember : Type := {
  node : Node;
  port : PyVal;
  pool : Pool
}.

(** ['%s%s%s' % (node_name, port, pool_name)] *)
Definition pm_key (node_name : string) (port : PyVal) (pool_name : string)
    : string :=
  node_name +:+ py_str port +:+ pool_name.

(** [self._pm_cache] is a dict from keys to pool members; [None] is the
    answer of a method that falls off its end. *)
Definition _pm_cache_get (_pm_cache : gmap string PoolMember)
    (node_name : string) (port : PyVal) (pool_name : string)
    : option PoolMember :=
  let key := pm_key node_name port pool_name in
  match _pm_cache !! key with
  | Some pm => Some pm
  | None => None
  end.

Definition _pm_cache_put (_pm_cache : gmap string PoolMember)
    (pm : PoolMember) : gmap string PoolMember :=
  let key := pm_key (node_name (node pm)) (port pm) (pool_name (pool pm)) in
  <[key := pm]> _pm_cache.

(** ** A reference appliance *)

(** An endpoint that stores what it is told and follows the transaction
    life cycle Closed -> Open -> Closed of the specification, with the two
    fault texts lb.py looks for.  It is not part of the repository; it
    serves to run the methods on concrete sessions. *)
Module BigIP.

Record Appliance : Type := {
  version : string;
  folder : string;
  recursive_query_state : string;
  transaction_open : bool;
  transaction_timeout : Z
}.

Definition set_folder (v : string) (a : Appliance) : Appliance :=
  {| version := version a; folder := v;
     recursive_query_state := recursive_query_state a;
     transaction_open := transaction_open a;
     transaction_timeout := transaction_timeout a |}.

Definition set_state (v : string) (a : Appliance) : Appliance :=
  {| version := version a; folder := folder a;
     recursive_query_state := v;
     transaction_open := transaction_open a;
     transaction_timeout := transaction_timeout a |}.

Definition set_open (v : bool) (a : Appliance) : Appliance :=
  {| version := version a; folder := folder a;
     recursive_query_state := recursive_query_state a;
     transaction_open := v;
     transaction_timeout := transaction_timeout a |}.

Definition set_timeout (v : Z) (a : Appliance) : Appliance :=
  {| version := version a; folder := folder a;
     recursive_query_state := recursive_query_state a;
     transaction_open := transaction_open a;
     transaction_timeout := v |}.

Definition start (a : Appliance) : result unit * Appliance :=
  if transaction_open a
  then (Raise (ServerError
                 "error_string : Only one transaction can be open at any time."),
        a)
  else (Ok tt, set_open true a).

Definition submit (a : Appliance) : result unit * Appliance :=
  if transaction_open a
  then (Ok tt, set_open false a)
  else (Raise (ServerError "error_string : No transaction is open to submit."),
        a).

Definition rollback (a : Appliance) : result unit * Appliance :=
  if transaction_open a
  then (Ok tt, set_open false a)
  else (Raise (ServerError
                 "error_string : No transaction is open to roll back."),
        a).

Definition endpoint : Transport Appliance :=
  {| wsdl_get_version := fun a => (Ok (version a), a);
     wsdl_get_active_folder := fun a => (Ok (folder a), a);
     wsdl_set_active_folder := fun v a => (Ok tt, set_folder v a);
     wsdl_get_recursive_query_state :=
       fun a => (Ok (recursive_query_state a), a);
     wsdl_set_recursive_query_state := fun v a => (Ok tt, set_state v a);
     wsdl_start_transaction := start;
     wsdl_submit_transaction := submit;
     wsdl_rollback_transaction := rollback;
     wsdl_get_transaction_timeout := fun a => (Ok (transaction_timeout a), a);
     wsdl_set_transaction_timeout := fun v a => (Ok tt, set_timeout v a) |}.

(** An appliance in partition [/Common], recursion off, no transaction. *)
Definition idle : Appliance :=
  {| version := "BIG-IP_v11.4.1"; folder := "/Common";
     recursive_query_state := "STATE_DISABLED";
     transaction_open := false; transaction_timeout := 5 |}.

(** The same appliance running an older release. *)
Definition legacy : Appliance :=
  {| version := "BIG-IP_v10.2.4"; folder := "/Common";
     recursive_query_state := "STATE_DISABLED";
     transaction_open := false; transaction_timeout := 5 |}.

(** The session object [Lb.__init__] builds against [idle]. *)
Definition lb_idle : Lb :=
  {| _host := "lb1"; _username := "admin"; _versioncheck := true;
     _active_folder := "/Common"; _recursive_query := PyBool false;
     _transaction := false; _transaction_timeout := 5 |}.

Definition session (o : Lb) (a : Appliance) : St Appliance := mkSt o a [].


(** A method body that answers [42] and one that raises. *)
Definition answers : M Appliance PyVal := ret (PyInt 42).
Definition fails : M Appliance PyVal := raise (OtherError "KeyError").

End BigIP.

(** The reads that end [__init__], from the state reached after the
    version check; [__init__] continues with exactly these. *)
Definition read_session_state {R : Type} (T : Transport R) : M R unit :=
  v1 <- active_folder_getter T ;;
  assign (with_active_folder v1) ;;;
  v2 <- recursive_query_getter T ;;
  assign (with_recursive_query v2) ;;;
  v3 <- transaction_getter T ;;
  assign (with_transaction v3) ;;;
  v4 <- transaction_timeout_getter T ;;
  assign (with_transaction_timeout v4).

(** [m] only issues remote calls satisfying [P]: whatever the outcome, the
    trace grows by such calls. *)
Definition issues {R A : Type} (P : Call -> Prop) (m : M R A) : Prop :=
  forall s, exists calls,
    trace (snd (m s)) = trace s ++ calls /\ Forall P calls.

(** ** Read-only properties and [__repr__] *)

Definition host {R} : M R string := o <- get_self ;; ret (_host o).

Definition username {R} : M R string := o <- get_self ;; ret (_username o).

Definition versioncheck {R} : M R bool :=
  o <- get_self ;; ret (_versioncheck o).

(** ["f5.Lb('%s')" % (self._host)] *)
Definition __repr__ {R} : M R string :=
  o <- get_self ;; ret ("f5.Lb('" +:+ _host o +:+ "')").

(** ** The name-keyed caches and [pools_get_vs] *)

(** The classes of package [f5] are not part of lb.py.  Of a virtual
    server the code reads [vs.name] and [vs._default_pool.name], of a rule
    [rule.name]; both types and these attributes are parameters, and so
    are the three class methods [pools_get_vs] calls. *)
Section Entities.

Context {R : Type} {VirtualServer Rule : Type}.
Context (vs_name : VirtualServer -> string).
Context (vs_default_pool_name : VirtualServer -> string).
Context (rule_name : Rule -> string).
Context (Pool_get_list : M R (list string)).
Context (VirtualServer_get : bool -> M R (list VirtualServer)).
Context (VirtualServer_refresh_default_pool :
           list VirtualServer -> M R (list VirtualServer)).

Definition _node_cache_put (_node_cache : gmap string Node) (node : Node)
    : gmap string Node :=
  <[node_name node := node]> _node_cache.

Definition _node_cache_get (_node_cache : gmap string Node) (name : string)
    : option Node :=
  match _node_cache !! name with
  | Some node => Some node
  | None => None
  end.

Definition _pool_cache_put (_pool_cache : gmap string Pool) (pool : Pool)
    : gmap string Pool :=
  <[pool_name pool := pool]> _pool_cache.

Definition _pool_cache_get (_pool_cache : gmap string Pool) (name : string)
    : option Pool :=
  match _pool_cache !! name with
  | Some pool => Some pool
  | None => None
  end.

Definition _vs_cache_put (_vs_cache : gmap string VirtualServer)
    (vs : VirtualServer) : gmap string VirtualServer :=
  <[vs_name vs := vs]> _vs_cache.

Definition _vs_cache_get (_vs_cache : gmap string VirtualServer)
    (name : string) : option VirtualServer :=
  match _vs_cache !! name with
  | Some vs => Some vs
  | None => None
  end.

Definition _rule_cache_put (_rule_cache : gmap string Rule) (rule : Rule)
    : gmap string Rule :=
  <[rule_name rule := rule]> _rule_cache.

Definition _rule_cache_get (_rule_cache : gmap string Rule) (name : string)
    : option Rule :=
  match _rule_cache !! name with
  | Some rule => Some rule
  | None => None
  end.

(** The [pools] argument of [pools_get_vs]: a list of pool names or a list
    of [f5.Pool] objects ([None], the default, is the absent option). *)
Inductive PoolsArg : Type :=
| PoolNames (names : list string)
| PoolObjects (pools : list Pool).

(** [{pool: [] for pool in pools}] *)
Definition empty_lists (pools : list string)
    : gmap string (list VirtualServer) :=
  fold_left (fun result pool => <[pool := []]> result) pools ∅.

(** The inner loop, [for vs in vss: if pool == vs._default_pool.name:
    result[pool].append(vs)]; subscripting a missing key raises
    KeyError. *)
Fixpoint for_vs (pool : string) (vss : list VirtualServer)
    (result : gmap string (list VirtualServer))
    : M R (gmap string (list VirtualServer)) :=
  match vss with
  | [] => ret result
  | vs :: rest =>
      if String.eqb pool (vs_default_pool_name vs)
      then match result !! pool with
           | Some found => for_vs pool rest (<[pool := found ++ [vs]]> result)
           | None => raise (OtherError "KeyError")
           end
      else for_vs pool rest result
  end.

(** The outer loop, [for pool in pools]. *)
Fixpoint for_pool (pools : list string) (vss : list VirtualServer)
    (result : gmap string (list VirtualServer))
    : M R (gmap string (list VirtualServer)) :=
  match pools with
  | [] => ret result
  | pool :: rest =>
      result' <- for_vs pool vss result ;;
      for_pool rest vss result'
  end.

(** The body of [pools_get_vs], the function the [recursivereader]
    decorator is applied to.  [pools[0]] on an empty list raises
    IndexError. *)
Definition pools_get_vs (pools : option PoolsArg) (minimal : bool)
    : M R (gmap string (list VirtualServer)) :=
  pools <- match pools with
           | None => Pool_get_list
           | Some (PoolNames []) => raise (OtherError "IndexError")
           | Some (PoolObjects []) => raise (OtherError "IndexError")
           | Some (PoolNames names) => ret names
           | Some (PoolObjects objects) => ret (map pool_name objects)
           end ;;
  let result := empty_lists pools in
  vss <- VirtualServer_get minimal ;;
  vss <- (if minimal then VirtualServer_refresh_default_pool vss
          else ret vss) ;;
  for_pool pools vss result.

End Entities.

(** Runs the transaction methods up to the answer [H] of the first remote
    call. *)
Ltac run_remote H :=
  unfold transaction_getter, _active_transaction, _ensure_transaction,
    _ensure_no_transaction, try_except, bind, invoke, assign, get_self,
    ret, raise;
  simpl; rewrite H; simpl.

(** * Properties *)

(** ** Values *)

Lemma py_eq_refl (v : PyVal) : py_eq v v = true.
Proof.
  revert v. fix IH 1. intros [ | b | z | t | items text]; simpl; trivial.
  - now destruct b.
  - apply Z.eqb_refl.
  - apply String.eqb_refl.
  - induction items as [ | x rest IHrest]; [reflexivity | ].
    rewrite IH. exact IHrest.
Qed.

(** ** The trace discipline *)

Section Issues.

Context {R : Type} (P : Call -> Prop).

Lemma issues_ret {A} (a : A) : issues P (@ret R A a).
Proof. intros s. exists []. simpl. rewrite app_nil_r. auto. Qed.

Lemma issues_raise {A} (e : exn) : issues P (@raise R A e).
Proof. intros s. exists []. simpl. rewrite app_nil_r. auto. Qed.

Lemma issues_get_self : issues P (@get_self R).
Proof. intros s. exists []. simpl. rewrite app_nil_r. auto. Qed.

Lemma issues_assign (f : Lb -> Lb) : issues P (@assign R f).
Proof. intros s. exists []. simpl. rewrite app_nil_r. auto. Qed.

Lemma issues_invoke {A} (c : Call) (proc : R -> result A * R) :
  P c -> issues P (invoke c proc).
Proof.
  intros Hc s. exists [c]. unfold invoke.
  destruct (proc (remote s)) as [r a]. simpl. auto.
Qed.

Lemma issues_bind {A B} (m : M R A) (k : A -> M R B) :
  issues P m -> (forall a, issues P (k a)) -> issues P (bind m k).
Proof.
  intros Hm Hk s. unfold bind.
  destruct (Hm s) as (c1 & E1 & F1).
  destruct (m s) as [[a | e] s1]; simpl in E1.
  - destruct (Hk a s1) as (c2 & E2 & F2).
    exists (c1 ++ c2). rewrite E2, E1, app_assoc. split; trivial.
    apply Forall_app; auto.
  - exists c1. simpl. auto.
Qed.

Lemma issues_try_except {A} (body : M R A) (handler : exn -> M R A) :
  issues P body -> (forall e, issues P (handler e)) ->
  issues P (try_except body handler).
Proof.
  intros Hm Hk s. unfold try_except.
  destruct (Hm s) as (c1 & E1 & F1).
  destruct (body s) as [[a | e] s1]; simpl in E1.
  - exists c1. simpl. auto.
  - destruct (Hk e s1) as (c2 & E2 & F2).
    exists (c1 ++ c2). rewrite E2, E1, app_assoc. split; trivial.
    apply Forall_app; auto.
Qed.

End Issues.

(** One syntax-directed step of a proof of [issues]. *)
Ltac issues_step :=
  first
    [ apply issues_ret | apply issues_raise | apply issues_get_self
    | apply issues_assign
    | apply issues_invoke; discriminate
    | apply issues_bind | apply issues_try_except
    | match goal with
      | |- forall _, _ => intro
      | |- issues _ (match ?x with _ => _ end) => destruct x
      end ].

(** ** The recursive_query property *)

(** The two recognised states are mapped to booleans and cached. *)
Lemma recursive_query_getter_known {R} (T : Transport R) (s : St R)
    (b : bool) (r1 : R) :
  wsdl_get_recursive_query_state T (remote s)
    = (Ok (if b then "STATE_ENABLED" else "STATE_DISABLED"), r1) ->
  recursive_query_getter T s
    = (Ok (PyBool b),
       mkSt (with_recursive_query (PyBool b) (self s)) r1
            (trace s ++ [GetRecursiveQueryState])).
Proof.
  intros H.
  unfold recursive_query_getter, _get_recursive_query_state, bind, invoke.
  rewrite H. now destruct b.
Qed.

(** C6: the recursive_query getter maps STATE_ENABLED to True and
    STATE_DISABLED to False; for any other state string the exception that
    leaves the getter is the TypeError raised while evaluating
    [RuntimeError(...) % state], not the RuntimeError the source names. *)
Theorem recursive_query_getter_unknown_state {R} (T : Transport R)
    (s : St R) (state : string) (r1 : R) :
  wsdl_get_recursive_query_state T (remote s) = (Ok state, r1) ->
  state <> "STATE_ENABLED" ->
  state <> "STATE_DISABLED" ->
  recursive_query_getter T s
    = (Raise TypeError,
       mkSt (self s) r1 (trace s ++ [GetRecursiveQueryState])).
Proof.
  intros H Hen Hdis.
  apply String.eqb_neq in Hen. apply String.eqb_neq in Hdis.
  unfold recursive_query_getter, _get_recursive_query_state, bind, invoke.
  rewrite H, Hen, Hdis. reflexivity.
Qed.

Lemma recursive_query_getter_unknown_state_witness :
  recursive_query_getter BigIP.endpoint
    (BigIP.session BigIP.lb_idle (BigIP.set_state "STATE_UNKNOWN" BigIP.idle))
  = (Raise TypeError,
     mkSt BigIP.lb_idle (BigIP.set_state "STATE_UNKNOWN" BigIP.idle)
          [GetRecursiveQueryState]).
Proof.
  apply (recursive_query_getter_unknown_state BigIP.endpoint
           (BigIP.session BigIP.lb_idle
              (BigIP.set_state "STATE_UNKNOWN" BigIP.idle))
           "STATE_UNKNOWN").
  - reflexivity.
  - discriminate.
  - discriminate.
Defined.

(** The recursive_query setter, whatever it is given: one write of the
    matching state for a value [==] True or False, and otherwise an
    exception raised before anything is touched. *)
Lemma recursive_query_setter_run_any {R} (T : Transport R) (v : PyVal)
    (s : St R) :
  recursive_query_setter T v s
  = if py_eq v (PyBool true) || py_eq v (PyBool false)
    then
      let q := if py_eq v (PyBool true) then "STATE_ENABLED"
               else "STATE_DISABLED" in
      match wsdl_set_recursive_query_state T q (remote s) with
      | (Ok _, r1) =>
          (Ok tt, mkSt (with_recursive_query v (self s)) r1
                       (trace s ++ [SetRecursiveQueryState q]))
      | (Raise e, r1) =>
          (Raise e, mkSt (self s) r1 (trace s ++ [SetRecursiveQueryState q]))
      end
    else
      (Raise match format_value
                     "recursive_query must be one of True/False, not " v with
             | Ok message => ValueError message
             | Raise e => e
             end, s).
Proof.
  unfold recursive_query_setter, _set_recursive_query_state, bind, invoke,
    assign, ret, raise.
  destruct (py_eq v (PyBool true)); cbn -[format_value].
  - destruct (wsdl_set_recursive_query_state T "STATE_ENABLED" (remote s))
      as [[[] | e] r1]; reflexivity.
  - destruct (py_eq v (PyBool false)); cbn -[format_value].
    + destruct (wsdl_set_recursive_query_state T "STATE_DISABLED" (remote s))
        as [[[] | e] r1]; reflexivity.
    + destruct (format_value _ v); reflexivity.
Qed.

(** C7, as the code has it: a boolean written through the setter is read
    back by the getter when the endpoint reports the state it was last
    given; any value that Python's [==] equates with True or False, a
    boolean or not, is accepted, sent as the matching state and cached as
    given.  A value that Python's [==] equates with neither True nor False
    makes the setter raise with the session, the appliance and the trace
    untouched - no remote call is issued.  What is raised is ValueError
    with the value formatted into the message, unless the value is a
    tuple: the [%] operator takes a tuple as its argument list, so a
    1-tuple has its item formatted into the ValueError, and a tuple of any
    other length makes the formatting itself raise TypeError. *)
Theorem recursive_query_setter_contract {R} (T : Transport R) (s : St R) :
  (forall (b : bool) (r1 r2 : R),
     wsdl_set_recursive_query_state T
       (if b then "STATE_ENABLED" else "STATE_DISABLED") (remote s)
       = (Ok tt, r1) ->
     wsdl_get_recursive_query_state T r1
       = (Ok (if b then "STATE_ENABLED" else "STATE_DISABLED"), r2) ->
     fst ((recursive_query_setter T (PyBool b) ;;;
           recursive_query_getter T) s) = Ok (PyBool b))
  /\
  (forall v : PyVal,
     py_eq v (PyBool true) = false ->
     py_eq v (PyBool false) = false ->
     (forall items text, v <> PyTuple items text) ->
     recursive_query_setter T v s
       = (Raise (ValueError
                   ("recursive_query must be one of True/False, not "
                    +:+ py_str v)),
          s))
  /\
  (forall (item : PyVal) (text : string),
     recursive_query_setter T (PyTuple [item] text) s
       = (Raise (ValueError
                   ("recursive_query must be one of True/False, not "
                    +:+ py_str item)),
          s))
  /\
  (forall (items : list PyVal) (text : string),
     length items <> 1 ->
     recursive_query_setter T (PyTuple items text) s = (Raise TypeError, s))
  /\
  (forall v : PyVal,
     py_eq v (PyBool true) = false ->
     py_eq v (PyBool false) = false ->
     exists e, recursive_query_setter T v s = (Raise e, s))
  /\
  (forall (v : PyVal) (r1 : R),
     py_eq v (PyBool true) || py_eq v (PyBool false) = true ->
     wsdl_set_recursive_query_state T
       (if py_eq v (PyBool true) then "STATE_ENABLED" else "STATE_DISABLED")
       (remote s) = (Ok tt, r1) ->
     recursive_query_setter T v s
     = (Ok tt,
        mkSt (with_recursive_query v (self s)) r1
             (trace s ++
              [SetRecursiveQueryState
                 (if py_eq v (PyBool true) then "STATE_ENABLED"
                  else "STATE_DISABLED")]))).
Proof.
  repeat match goal with |- _ /\ _ => split end;
    [ | | | | | intros v r1 Hbool Hset;
                rewrite recursive_query_setter_run_any, Hbool; cbv zeta;
                rewrite Hset; reflexivity ].
  - intros b r1 r2 Hset Hget.
    unfold bind at 1.
    assert (Hs : recursive_query_setter T (PyBool b) s
                 = (Ok tt, mkSt (with_recursive_query (PyBool b) (self s)) r1
                              (trace s ++
                               [SetRecursiveQueryState
                                  (if b then "STATE_ENABLED"
                                   else "STATE_DISABLED")]))).
    { unfold recursive_query_setter, _set_recursive_query_state, bind,
        invoke, assign, ret.
      destruct b; simpl in *; rewrite Hset; reflexivity. }
    rewrite Hs.
    erewrite recursive_query_getter_known; [reflexivity | exact Hget].
  - intros v Ht Hf Hplain.
    unfold recursive_query_setter, bind, raise. rewrite Ht, Hf.
    destruct v as [ | b | z | t | items text]; try reflexivity.
    now destruct (Hplain items text).
  - intros item text. reflexivity.
  - intros items text Hlen.
    destruct items as [ | x [ | y rest]]; try reflexivity.
    now destruct Hlen.
  - intros v Ht Hf.
    unfold recursive_query_setter, bind, raise. rewrite Ht, Hf.
    destruct (format_value _ v) as [message | e]; eauto.
Qed.

Lemma recursive_query_setter_contract_witness :
  fst ((recursive_query_setter BigIP.endpoint (PyBool true) ;;;
        recursive_query_getter BigIP.endpoint)
         (BigIP.session BigIP.lb_idle BigIP.idle)) = Ok (PyBool true)
  /\
  recursive_query_setter BigIP.endpoint (PyStr "yes")
    (BigIP.session BigIP.lb_idle BigIP.idle)
  = (Raise (ValueError "recursive_query must be one of True/False, not yes"),
     BigIP.session BigIP.lb_idle BigIP.idle)
  /\
  recursive_query_setter BigIP.endpoint
    (PyTuple [PyInt 1; PyInt 2] "(1, 2)")
    (BigIP.session BigIP.lb_idle BigIP.idle)
  = (Raise TypeError, BigIP.session BigIP.lb_idle BigIP.idle)
  /\
  exists e,
    recursive_query_setter BigIP.endpoint PyNone
      (BigIP.session BigIP.lb_idle BigIP.idle)
    = (Raise e, BigIP.session BigIP.lb_idle BigIP.idle).
Proof.
  destruct (recursive_query_setter_contract BigIP.endpoint
              (BigIP.session BigIP.lb_idle BigIP.idle))
    as (Hrt & Hbad & _ & Htuple & Hany & _).
  repeat match goal with |- _ /\ _ => split end.
  - apply (Hrt true (BigIP.set_state "STATE_ENABLED" BigIP.idle)
               (BigIP.set_state "STATE_ENABLED" BigIP.idle));
      reflexivity.
  - apply (Hbad (PyStr "yes")); [reflexivity | reflexivity | discriminate].
  - apply (Htuple [PyInt 1; PyInt 2] "(1, 2)"). discriminate.
  - apply (Hany PyNone); reflexivity.
Defined.

(** C7 as stated fails: the integer 1 is neither True nor False, yet the
    setter accepts it, sends STATE_ENABLED to the endpoint and caches 1. *)
Lemma recursive_query_setter_accepts_one :
  PyInt 1 <> PyBool true /\ PyInt 1 <> PyBool false /\
  recursive_query_setter BigIP.endpoint (PyInt 1)
    (BigIP.session BigIP.lb_idle BigIP.idle)
  = (Ok tt,
     mkSt (with_recursive_query (PyInt 1) BigIP.lb_idle)
          (BigIP.set_state "STATE_ENABLED" BigIP.idle)
          [SetRecursiveQueryState "STATE_ENABLED"]).
Proof. repeat split; discriminate. Qed.

(** ** The writer decorator *)

(** When the folder is the root, the folder is forced to /Common and the
    body runs under the restoring wrapper. *)
Lemma writer_at_root {R} (T : Transport R) (func : M R PyVal) (s : St R) :
  _active_folder (self s) = "/" ->
  writer T func s
  = restore_session_values T (active_folder_setter T "/Common" ;;; func) s.
Proof.
  intros H. unfold writer, restore_session_values, bind, get_self.
  rewrite H. reflexivity.
Qed.

(** C3 at the input where the code departs from it: with a non-root
    active folder the decorated method returns None without running its
    body, and nothing changes - neither the session, nor the appliance,
    nor the trace. *)
Theorem writer_skips_body_off_root {R} (T : Transport R) (func : M R PyVal)
    (s : St R) :
  _active_folder (self s) <> "/" ->
  writer T func s = (Ok PyNone, s).
Proof.
  intros H. apply String.eqb_neq in H.
  unfold writer, restore_session_values, bind, get_self, ret.
  rewrite H. simpl. rewrite String.eqb_refl. simpl.
  rewrite py_eq_refl. reflexivity.
Qed.

Lemma writer_skips_body_off_root_witness :
  writer BigIP.endpoint BigIP.answers (BigIP.session BigIP.lb_idle BigIP.idle)
  = (Ok PyNone, BigIP.session BigIP.lb_idle BigIP.idle).
Proof.
  apply (writer_skips_body_off_root BigIP.endpoint BigIP.answers
           (BigIP.session BigIP.lb_idle BigIP.idle)).
  discriminate.
Defined.

(** ** Transactions: probe, open, roll back *)

(** C4: reading the transaction property tries to start a transaction.
    An "already open" fault gives True with no further remote call; a
    successful start is followed at once by a rollback and gives False;
    every other exception of either call reaches the caller as it is. *)
Theorem transaction_getter_probe {R} (T : Transport R) (s : St R) :
  (forall (message : string) (r1 : R),
     wsdl_start_transaction T (remote s)
       = (Raise (ServerError message), r1) ->
     str_in "Only one transaction can be open at any time" message = true ->
     transaction_getter T s
     = (Ok true,
        mkSt (with_transaction true (self s)) r1
             (trace s ++ [StartTransaction])))
  /\
  (forall r1 r2 : R,
     wsdl_start_transaction T (remote s) = (Ok tt, r1) ->
     wsdl_rollback_transaction T r1 = (Ok tt, r2) ->
     transaction_getter T s
     = (Ok false,
        mkSt (with_transaction false (self s)) r2
             (trace s ++ [StartTransaction; RollbackTransaction])))
  /\
  (forall (e : exn) (r1 : R),
     wsdl_start_transaction T (remote s) = (Raise e, r1) ->
     (forall message, e = ServerError message ->
        str_in "Only one transaction can be open at any time" message
        = false) ->
     transaction_getter T s
     = (Raise e, mkSt (self s) r1 (trace s ++ [StartTransaction])))
  /\
  (forall (e : exn) (r1 r2 : R),
     wsdl_start_transaction T (remote s) = (Ok tt, r1) ->
     wsdl_rollback_transaction T r1 = (Raise e, r2) ->
     transaction_getter T s
     = (Raise e,
        mkSt (self s) r2
             (trace s ++ [StartTransaction; RollbackTransaction]))).
Proof.
  repeat split.
  - intros message r1 H Hin. run_remote H. rewrite Hin. reflexivity.
  - intros r1 r2 H Hrb. run_remote H. rewrite Hrb. simpl.
    rewrite <- app_assoc. reflexivity.
  - intros e r1 H Hother. run_remote H.
    destruct e as [message | | | | | ]; try reflexivity.
    rewrite (Hother message eq_refl). reflexivity.
  - intros e r1 r2 H Hrb. run_remote H. rewrite Hrb. simpl.
    rewrite <- app_assoc. reflexivity.
Qed.

Lemma transaction_getter_probe_witness :
  transaction_getter BigIP.endpoint
    (BigIP.session BigIP.lb_idle (BigIP.set_open true BigIP.idle))
  = (Ok true,
     mkSt (with_transaction true BigIP.lb_idle)
          (BigIP.set_open true BigIP.idle) [StartTransaction])
  /\
  transaction_getter BigIP.endpoint (BigIP.session BigIP.lb_idle BigIP.idle)
  = (Ok false,
     mkSt (with_transaction false BigIP.lb_idle) BigIP.idle
          [StartTransaction; RollbackTransaction]).
Proof.
  split.
  - apply (proj1 (transaction_getter_probe BigIP.endpoint
                    (BigIP.session BigIP.lb_idle
                       (BigIP.set_open true BigIP.idle)))
             "error_string : Only one transaction can be open at any time.");
      reflexivity.
  - apply (proj1 (proj2 (transaction_getter_probe BigIP.endpoint
                           (BigIP.session BigIP.lb_idle BigIP.idle)))
             (BigIP.set_open true BigIP.idle));
      reflexivity.
Defined.




(** ** The restoring wrapper *)



(** The run the specification describes for a successful body: folder and
    flag are / and True while the body runs and /Common and False again
    afterwards, on the session and on the appliance. *)
Lemma recursivereader_restores_on_return :
  recursivereader BigIP.endpoint BigIP.answers
    (BigIP.session BigIP.lb_idle BigIP.idle)
  = (Ok (PyInt 42),
     mkSt BigIP.lb_idle BigIP.idle
          [SetActiveFolder "/"; SetRecursiveQueryState "STATE_ENABLED";
           SetActiveFolder "/Common";
           SetRecursiveQueryState "STATE_DISABLED"]).
Proof. reflexivity. Qed.


(** ** The transaction wrapper *)

(** A nested invocation - the probe finds a transaction open - runs the
    body and nothing else: no start, no rollback, no submit, and an
    exception of the body is swallowed. *)
Lemma transaction_wrapper_nested {R} (T : Transport R) (func : M R PyVal)
    (s s1 : St R) :
  transaction_getter T s = (Ok true, s1) ->
  transaction_wrapper T func s = (Ok PyNone, snd (func s1)).
Proof.
  intros H. unfold transaction_wrapper, bind, try_except. rewrite H. simpl.
  unfold ret. destruct (func s1) as [[v | e] s2]; reflexivity.
Qed.

(** An owning invocation whose body returns ends with the submit. *)
Lemma transaction_wrapper_commit {R} (T : Transport R) (func : M R PyVal)
    (s s1 s2 s3 : St R) (v : PyVal) :
  transaction_getter T s = (Ok false, s1) ->
  transaction_setter T (PyBool true) s1 = (Ok tt, s2) ->
  func s2 = (Ok v, s3) ->
  transaction_wrapper T func s
  = (_submit_transaction T ;;; ret PyNone) s3.
Proof.
  intros H1 H2 H3. unfold transaction_wrapper, bind, try_except.
  rewrite H1. simpl. rewrite H2. rewrite H3. reflexivity.
Qed.

(** An outer wrapped call around an inner one, both returning: one remote
    submit, issued last. *)
Lemma transaction_wrapper_nested_one_submit :
  trace (snd (transaction_wrapper BigIP.endpoint
                (transaction_wrapper BigIP.endpoint BigIP.answers)
                (BigIP.session BigIP.lb_idle BigIP.idle)))
  = [StartTransaction; RollbackTransaction; StartTransaction;
     StartTransaction; SubmitTransaction].
Proof. reflexivity. Qed.

(** What the rollback attempt of the exception path leaves: whatever the
    endpoint answers, one rollback call has been logged and the wrapper
    goes on. *)
Lemma rollback_attempt_trace {R} (T : Transport R) (s : St R) :
  exists s',
    try_except (when true do transaction_setter T (PyBool false))
               (fun _ => ret tt) s = (Ok tt, s')
    /\ trace s' = trace s ++ [RollbackTransaction].
Proof.
  unfold try_except, transaction_setter, _ensure_no_transaction, bind,
    try_except, invoke, assign, ret, raise. simpl.
  destruct (wsdl_rollback_transaction T (remote s)) as [[[] | e] r1]; simpl.
  - eauto.
  - destruct e as [message | | | | | ]; simpl; eauto.
    destruct (str_in "No transaction is open to roll back." message);
      simpl; eauto.
Qed.

(** C2 at the input where the code departs from it: when the invocation
    owns the transaction and the body raises, the wrapper attempts the
    rollback and then falls through to the submit - the trace ends with a
    rollback followed by a submit. *)
Theorem transaction_wrapper_submits_after_failure {R} (T : Transport R)
    (func : M R PyVal) (s s1 s2 s3 : St R) (e : exn) :
  transaction_getter T s = (Ok false, s1) ->
  transaction_setter T (PyBool true) s1 = (Ok tt, s2) ->
  func s2 = (Raise e, s3) ->
  trace (snd (transaction_wrapper T func s))
  = trace s3 ++ [RollbackTransaction; SubmitTransaction].
Proof.
  intros H1 H2 H3.
  destruct (rollback_attempt_trace T s3) as (s4 & E4 & Ht).
  unfold transaction_wrapper, bind. rewrite H1. simpl. rewrite H2.
  unfold try_except at 1. unfold bind. rewrite H3.
  rewrite E4.
  unfold _submit_transaction, invoke, ret.
  destruct (wsdl_submit_transaction T (remote s4)) as [[[] | e'] r5]; simpl;
    rewrite Ht, <- app_assoc; reflexivity.
Qed.

Lemma transaction_wrapper_submits_after_failure_witness :
  trace (snd (transaction_wrapper BigIP.endpoint BigIP.fails
                (BigIP.session BigIP.lb_idle BigIP.idle)))
  = [StartTransaction; RollbackTransaction; StartTransaction]
      ++ [RollbackTransaction; SubmitTransaction].
Proof.
  apply (transaction_wrapper_submits_after_failure BigIP.endpoint BigIP.fails
           (BigIP.session BigIP.lb_idle BigIP.idle)
           (mkSt BigIP.lb_idle BigIP.idle
                 [StartTransaction; RollbackTransaction])
           (mkSt (with_transaction true BigIP.lb_idle)
                 (BigIP.set_open true BigIP.idle)
                 [StartTransaction; RollbackTransaction; StartTransaction])
           (mkSt (with_transaction true BigIP.lb_idle)
                 (BigIP.set_open true BigIP.idle)
                 [StartTransaction; RollbackTransaction; StartTransaction])
           (OtherError "KeyError"));
    reflexivity.
Defined.

(** A computation that, when it returns, returns [a]. *)
Lemma bind_returns_only {R A B} (m : M R A) (k : A -> M R B) (b : B) :
  (forall a s v s', k a s = (Ok v, s') -> v = b) ->
  forall s v s', bind m k s = (Ok v, s') -> v = b.
Proof.
  intros Hk s v s'. unfold bind.
  destruct (m s) as [[a | e] s1]; [apply Hk | discriminate].
Qed.

(** C9, as the code has it: the closure built by the transaction
    decorator never hands the body's value to its caller.  Whenever it
    returns, it returns None; replacing the body's return value by
    anything else changes nothing in the outcome; a nested invocation
    returns None whether its body returned or raised; and an owning
    invocation whose body returns returns None once the submit has
    succeeded. *)
Theorem transaction_wrapper_returns_None {R} (T : Transport R)
    (func : M R PyVal) (s : St R) :
  (forall (v : PyVal) (s' : St R),
     transaction_wrapper T func s = (Ok v, s') -> v = PyNone)
  /\
  (forall g : PyVal -> PyVal,
     transaction_wrapper T (v <- func ;; ret (g v)) s
     = transaction_wrapper T func s)
  /\
  (forall s1 : St R,
     transaction_getter T s = (Ok true, s1) ->
     transaction_wrapper T func s = (Ok PyNone, snd (func s1)))
  /\
  (forall (s1 s2 s3 : St R) (v : PyVal) (r4 : R),
     transaction_getter T s = (Ok false, s1) ->
     transaction_setter T (PyBool true) s1 = (Ok tt, s2) ->
     func s2 = (Ok v, s3) ->
     wsdl_submit_transaction T (remote s3) = (Ok tt, r4) ->
     transaction_wrapper T func s
     = (Ok PyNone, mkSt (self s3) r4 (trace s3 ++ [SubmitTransaction]))).
Proof.
  split; [ | split; [ | split]].
  - unfold transaction_wrapper.
    repeat (apply bind_returns_only; intros ?).
    unfold ret. intros s0 v s' [= <- _]. reflexivity.
  - intros g. unfold transaction_wrapper, bind, try_except, ret.
    destruct (transaction_getter T s) as [[t | e] s1]; [ | reflexivity].
    match goal with
    | |- context [(if ?c then ?m else ?n) s1] =>
        destruct ((if c then m else n) s1) as [[[] | e] s2]
    end; [ | reflexivity].
    destruct (func s2) as [[v | e] s3]; reflexivity.
  - intros s1 H. now apply transaction_wrapper_nested.
  - intros s1 s2 s3 v r4 H1 H2 H3 H4.
    rewrite (transaction_wrapper_commit T func s s1 s2 s3 v H1 H2 H3).
    unfold _submit_transaction, bind, invoke, ret. rewrite H4. reflexivity.
Qed.

Lemma transaction_wrapper_returns_None_witness :
  transaction_wrapper BigIP.endpoint BigIP.answers
    (BigIP.session BigIP.lb_idle (BigIP.set_open true BigIP.idle))
  = (Ok PyNone,
     mkSt (with_transaction true BigIP.lb_idle)
          (BigIP.set_open true BigIP.idle) [StartTransaction])
  /\
  transaction_wrapper BigIP.endpoint BigIP.fails
    (BigIP.session BigIP.lb_idle (BigIP.set_open true BigIP.idle))
  = (Ok PyNone,
     mkSt (with_transaction true BigIP.lb_idle)
          (BigIP.set_open true BigIP.idle) [StartTransaction])
  /\
  match fst (transaction_wrapper BigIP.endpoint BigIP.answers
               (BigIP.session BigIP.lb_idle BigIP.idle)) with
  | Ok v => v = PyNone
  | Raise _ => False
  end
  /\
  transaction_wrapper BigIP.endpoint BigIP.answers
    (BigIP.session BigIP.lb_idle BigIP.idle)
  = (Ok PyNone,
     mkSt (with_transaction true BigIP.lb_idle) BigIP.idle
          ([StartTransaction; RollbackTransaction; StartTransaction]
             ++ [SubmitTransaction])).
Proof.
  split; [ | split; [ | split]].
  - apply (proj1 (proj2 (proj2 (transaction_wrapper_returns_None
                                  BigIP.endpoint BigIP.answers
                                  (BigIP.session BigIP.lb_idle
                                     (BigIP.set_open true BigIP.idle)))))).
    reflexivity.
  - apply (proj1 (proj2 (proj2 (transaction_wrapper_returns_None
                                  BigIP.endpoint BigIP.fails
                                  (BigIP.session BigIP.lb_idle
                                     (BigIP.set_open true BigIP.idle)))))).
    reflexivity.
  - exact (proj1 (transaction_wrapper_returns_None BigIP.endpoint
                    BigIP.answers
                    (BigIP.session BigIP.lb_idle BigIP.idle))
             PyNone
             (mkSt (with_transaction true BigIP.lb_idle) BigIP.idle
                   [StartTransaction; RollbackTransaction;
                    StartTransaction; SubmitTransaction]) eq_refl).
  - apply (proj2 (proj2 (proj2 (transaction_wrapper_returns_None
                                  BigIP.endpoint BigIP.answers
                                  (BigIP.session BigIP.lb_idle BigIP.idle))))
             (mkSt BigIP.lb_idle BigIP.idle
                   [StartTransaction; RollbackTransaction])
             (mkSt (with_transaction true BigIP.lb_idle)
                   (BigIP.set_open true BigIP.idle)
                   [StartTransaction; RollbackTransaction;
                    StartTransaction])
             (mkSt (with_transaction true BigIP.lb_idle)
                   (BigIP.set_open true BigIP.idle)
                   [StartTransaction; RollbackTransaction;
                    StartTransaction])
             (PyInt 42));
      reflexivity.
Defined.

(** C9 as stated fails: a wrapped operation does not return None on every
    path.  When the invocation owns the transaction and the body raises,
    the wrapper itself raises - on the reference appliance the fault of
    the submit issued after the rollback; and the decorator, having no
    [return wrapper], binds the decorated name to None rather than to a
    callable. *)
Lemma transaction_wrapper_raises_on_owned_failure :
  transaction_wrapper BigIP.endpoint BigIP.fails
    (BigIP.session BigIP.lb_idle BigIP.idle)
  = (Raise (ServerError "error_string : No transaction is open to submit."),
     mkSt (with_transaction false BigIP.lb_idle) BigIP.idle
          [StartTransaction; RollbackTransaction; StartTransaction;
           RollbackTransaction; SubmitTransaction])
  /\
  fst (transaction_wrapper BigIP.endpoint BigIP.fails
         (BigIP.session BigIP.lb_idle BigIP.idle)) <> Ok PyNone
  /\
  transaction BigIP.endpoint BigIP.answers = None.
Proof. repeat split. discriminate. Qed.

(** ** Construction *)

(** Reading the four session properties never asks for the version. *)
Lemma read_session_state_issues {R} (T : Transport R) :
  issues (fun c => c <> GetVersion) (read_session_state T).
Proof.
  unfold read_session_state, active_folder_getter, recursive_query_getter,
    transaction_getter, transaction_timeout_getter, _active_transaction,
    _get_active_folder, _get_recursive_query_state,
    _get_transaction_timeout.
  repeat issues_step.
Qed.

Lemma __init___unfold {R} (T : Transport R) (host username password : string)
    (versioncheck : bool) :
  __init__ T host username password versioncheck
  = (assign (with_credentials host username versioncheck) ;;;
     version <- invoke GetVersion (wsdl_get_version T) ;;
     if versioncheck && negb (str_in "BIG-IP_v11" version)
     then raise (UnsupportedF5Version
                   "This class only supports BIG-IP v11" version)
     else read_session_state T).
Proof. reflexivity. Qed.

(** C8: construction asks the endpoint for its version exactly once.
    With the check enabled and a version string without BIG-IP_v11 it
    raises UnsupportedF5Version right after that call.  With the check
    disabled it goes on to read the session properties whatever the
    version string is, and its outcome is that of those reads; against the
    reference appliance it succeeds for every version string. *)
Theorem Lb_new_version_check :
  (forall {R} (T : Transport R) (host username password : string)
          (versioncheck : bool) (r r1 : R) (reported : string),
     wsdl_get_version T r = (Ok reported, r1) ->
     count_occ Call_eq_dec
       (trace (snd (Lb_new T host username password versioncheck r)))
       GetVersion = 1
     /\
     (versioncheck = true ->
      str_in "BIG-IP_v11" reported = false ->
      Lb_new T host username password versioncheck r
      = (Raise (UnsupportedF5Version
                  "This class only supports BIG-IP v11" reported),
         mkSt (with_credentials host username versioncheck unbound) r1
              [GetVersion]))
     /\
     (versioncheck = false \/ str_in "BIG-IP_v11" reported = true ->
      Lb_new T host username password versioncheck r
      = read_session_state T
          (mkSt (with_credentials host username versioncheck unbound) r1
                [GetVersion])))
  /\
  (forall (host username password reported : string),
     fst (Lb_new BigIP.endpoint host username password false
            {| BigIP.version := reported; BigIP.folder := "/Common";
               BigIP.recursive_query_state := "STATE_DISABLED";
               BigIP.transaction_open := false;
               BigIP.transaction_timeout := 5 |})
     = Ok tt).
Proof.
  split.
  - intros R T host username password versioncheck r r1 reported Hv.
    assert (Hrun : Lb_new T host username password versioncheck r
                   = if versioncheck && negb (str_in "BIG-IP_v11" reported)
                     then (Raise (UnsupportedF5Version
                                    "This class only supports BIG-IP v11"
                                    reported),
                           mkSt (with_credentials host username versioncheck
                                   unbound) r1 [GetVersion])
                     else read_session_state T
                            (mkSt (with_credentials host username versioncheck
                                     unbound) r1 [GetVersion])).
    { unfold Lb_new. rewrite __init___unfold.
      unfold bind at 1 2, assign at 1, invoke at 1. simpl.
      rewrite Hv.
      destruct (versioncheck && negb (str_in "BIG-IP_v11" reported));
        reflexivity. }
    split; [ | split].
    + rewrite Hrun.
      destruct (versioncheck && negb (str_in "BIG-IP_v11" reported)).
      * reflexivity.
      * destruct (read_session_state_issues T
                    (mkSt (with_credentials host username versioncheck unbound)
                          r1 [GetVersion])) as (calls & E & F).
        rewrite E. simpl.
        destruct (Call_eq_dec GetVersion GetVersion); [ | congruence].
        f_equal. apply count_occ_not_In.
        rewrite Forall_forall in F. intros Hin.
        apply list_elem_of_In in Hin. exact (F _ Hin eq_refl).
    + intros -> Hno. rewrite Hrun, Hno. reflexivity.
    + intros [-> | Hyes]; rewrite Hrun.
      * reflexivity.
      * rewrite Hyes, andb_false_r. reflexivity.
  - intros host username password reported. reflexivity.
Qed.

Lemma Lb_new_version_check_witness :
  Lb_new BigIP.endpoint "lb1" "admin" "secret" true BigIP.legacy
  = (Raise (UnsupportedF5Version "This class only supports BIG-IP v11"
              "BIG-IP_v10.2.4"),
     mkSt (with_credentials "lb1" "admin" true unbound) BigIP.legacy
          [GetVersion])
  /\
  Lb_new BigIP.endpoint "lb1" "admin" "secret" false BigIP.legacy
  = read_session_state BigIP.endpoint
      (mkSt (with_credentials "lb1" "admin" false unbound) BigIP.legacy
            [GetVersion]).
Proof.
  split.
  - apply (proj1 (proj2 (proj1 Lb_new_version_check _ BigIP.endpoint
                           "lb1" "admin" "secret" true
                           BigIP.legacy BigIP.legacy "BIG-IP_v10.2.4"
                           eq_refl)));
      reflexivity.
  - apply (proj2 (proj2 (proj1 Lb_new_version_check _ BigIP.endpoint
                           "lb1" "admin" "secret" false
                           BigIP.legacy BigIP.legacy "BIG-IP_v10.2.4"
                           eq_refl))).
    left. reflexivity.
Defined.

(** ** The pool-member cache *)

(** C10: the key is the bare concatenation of node name, port text and
    pool name, with nothing in between; a put stores the member under the
    key of its own triple and a get reads the dict at the key of the
    triple asked for.  So distinct triples can share a key; whenever two
    pool members share it, putting the second replaces the entry of the
    first, and a lookup for the first returns the second. *)
Theorem pm_cache_key_collision :
  (forall (n : string) (p : PyVal) (l : string),
     pm_key n p l = n +:+ py_str p +:+ l)
  /\
  (forall (cache : gmap string PoolMember) (pm : PoolMember),
     _pm_cache_put cache pm
     = <[node_name (node pm) +:+ py_str (port pm) +:+ pool_name (pool pm)
         := pm]> cache)
  /\
  (forall (cache : gmap string PoolMember) (n : string) (p : PyVal)
          (l : string),
     _pm_cache_get cache n p l = cache !! (n +:+ py_str p +:+ l))
  /\
  pm_key "n" (PyInt 180) "p" = "n180p"
  /\
  (exists (n1 : string) (p1 : PyVal) (l1 : string)
          (n2 : string) (p2 : PyVal) (l2 : string),
     (n1, p1, l1) <> (n2, p2, l2) /\ pm_key n1 p1 l1 = pm_key n2 p2 l2)
  /\
  (forall (cache : gmap string PoolMember) (pm1 pm2 : PoolMember),
     pm_key (node_name (node pm1)) (port pm1) (pool_name (pool pm1))
     = pm_key (node_name (node pm2)) (port pm2) (pool_name (pool pm2)) ->
     _pm_cache_put (_pm_cache_put cache pm1) pm2 = _pm_cache_put cache pm2
     /\
     _pm_cache_get (_pm_cache_put (_pm_cache_put cache pm1) pm2)
       (node_name (node pm1)) (port pm1) (pool_name (pool pm1))
     = Some pm2).
Proof.
  repeat match goal with |- _ /\ _ => split end.
  - reflexivity.
  - reflexivity.
  - intros cache n p l. unfold _pm_cache_get, pm_key.
    destruct (cache !! (n +:+ py_str p +:+ l)); reflexivity.
  - reflexivity.
  - exists "n", (PyInt 180), "p", "n1", (PyInt 80), "p".
    split; [discriminate | reflexivity].
  - intros cache pm1 pm2 Hkey.
    unfold _pm_cache_put, _pm_cache_get. rewrite Hkey. split.
    + apply insert_insert_eq.
    + rewrite lookup_insert_eq. reflexivity.
Qed.

Lemma pm_cache_key_collision_witness :
  _pm_cache_get
    (_pm_cache_put
       (_pm_cache_put ∅
          {| node := {| node_name := "n" |}; port := PyInt 180;
             pool := {| pool_name := "p" |} |})
       {| node := {| node_name := "n1" |}; port := PyInt 80;
          pool := {| pool_name := "p" |} |})
    "n" (PyInt 180) "p"
  = Some {| node := {| node_name := "n1" |}; port := PyInt 80;
            pool := {| pool_name := "p" |} |}.
Proof.
  apply (proj2
           (proj2 (proj2 (proj2 (proj2 (proj2 pm_cache_key_collision))))
              ∅
              {| node := {| node_name := "n" |}; port := PyInt 180;
                 pool := {| pool_name := "p" |} |}
              {| node := {| node_name := "n1" |}; port := PyInt 80;
                 pool := {| pool_name := "p" |} |}
              eq_refl)).
Defined.

(** * Further properties of the session class *)

(** ** Setters against an endpoint that accepts the write *)

Lemma active_folder_setter_run {R} (T : Transport R) (p : string) (s : St R) :
  active_folder_setter T p s
  = match wsdl_set_active_folder T p (remote s) with
    | (Ok _, r1) =>
        (Ok tt, mkSt (with_active_folder p (self s)) r1
                     (trace s ++ [SetActiveFolder p]))
    | (Raise e, r1) =>
        (Raise e, mkSt (self s) r1 (trace s ++ [SetActiveFolder p]))
    end.
Proof.
  unfold active_folder_setter, _set_active_folder, bind, invoke, assign.
  destruct (wsdl_set_active_folder T p (remote s)) as [[[] | e] r1];
    reflexivity.
Qed.

Lemma recursive_query_setter_run {R} (T : Transport R) (b : bool) (s : St R) :
  recursive_query_setter T (PyBool b) s
  = match wsdl_set_recursive_query_state T
            (if b then "STATE_ENABLED" else "STATE_DISABLED") (remote s) with
    | (Ok _, r1) =>
        (Ok tt, mkSt (with_recursive_query (PyBool b) (self s)) r1
                     (trace s ++
                      [SetRecursiveQueryState
                         (if b then "STATE_ENABLED" else "STATE_DISABLED")]))
    | (Raise e, r1) =>
        (Raise e, mkSt (self s) r1
                       (trace s ++
                        [SetRecursiveQueryState
                           (if b then "STATE_ENABLED" else "STATE_DISABLED")]))
    end.
Proof.
  unfold recursive_query_setter, _set_recursive_query_state, bind, invoke,
    assign, ret.
  destruct b; simpl;
    match goal with
    | |- context [wsdl_set_recursive_query_state T ?q ?r] =>
        destruct (wsdl_set_recursive_query_state T q r) as [[[] | e] r1]
    end; reflexivity.
Qed.

(** ** The active_folder and transaction_timeout properties *)

(** X1: The folder written through the setter is read back by the getter when
    the endpoint reports what it was given; a write the endpoint rejects
    raises the fault and leaves the cached folder as it was; a read
    replaces the cached folder by the endpoint's answer, whatever was
    cached. *)
Theorem active_folder_contract {R} (T : Transport R) (s : St R) :
  (forall (p : string) (r1 r2 : R),
     wsdl_set_active_folder T p (remote s) = (Ok tt, r1) ->
     wsdl_get_active_folder T r1 = (Ok p, r2) ->
     (active_folder_setter T p ;;; active_folder_getter T) s
     = (Ok p,
        mkSt (with_active_folder p (self s)) r2
             (trace s ++ [SetActiveFolder p; GetActiveFolder])))
  /\
  (forall (p : string) (e : exn) (r1 : R),
     wsdl_set_active_folder T p (remote s) = (Raise e, r1) ->
     active_folder_setter T p s
     = (Raise e, mkSt (self s) r1 (trace s ++ [SetActiveFolder p])))
  /\
  (forall (p : string) (r1 : R),
     wsdl_get_active_folder T (remote s) = (Ok p, r1) ->
     active_folder_getter T s
     = (Ok p,
        mkSt (with_active_folder p (self s)) r1
             (trace s ++ [GetActiveFolder]))).
Proof.
  split; [ | split].
  - intros p r1 r2 Hset Hget. unfold bind at 1.
    rewrite active_folder_setter_run, Hset.
    unfold active_folder_getter, _get_active_folder, bind, invoke, assign,
      get_self, ret. simpl.
    rewrite Hget. simpl. rewrite <- app_assoc. reflexivity.
  - intros p e r1 Hset. rewrite active_folder_setter_run, Hset. reflexivity.
  - intros p r1 Hget.
    unfold active_folder_getter, _get_active_folder, bind, invoke, assign,
      get_self, ret.
    rewrite Hget. reflexivity.
Qed.

Lemma active_folder_contract_witness :
  (active_folder_setter BigIP.endpoint "/Common/app" ;;;
   active_folder_getter BigIP.endpoint)
    (BigIP.session BigIP.lb_idle BigIP.idle)
  = (Ok "/Common/app",
     mkSt (with_active_folder "/Common/app" BigIP.lb_idle)
          (BigIP.set_folder "/Common/app" BigIP.idle)
          [SetActiveFolder "/Common/app"; GetActiveFolder])
  /\
  active_folder_getter BigIP.endpoint
    (BigIP.session (with_active_folder "/stale" BigIP.lb_idle) BigIP.idle)
  = (Ok "/Common", mkSt BigIP.lb_idle BigIP.idle [GetActiveFolder]).
Proof.
  split.
  - apply (proj1 (active_folder_contract BigIP.endpoint
                    (BigIP.session BigIP.lb_idle BigIP.idle))
             "/Common/app" (BigIP.set_folder "/Common/app" BigIP.idle));
      reflexivity.
  - apply (proj2 (proj2 (active_folder_contract BigIP.endpoint
                           (BigIP.session
                              (with_active_folder "/stale" BigIP.lb_idle)
                              BigIP.idle)))).
    reflexivity.
Defined.

(** X2: The timeout written through the setter is read back by the getter
    when the endpoint reports what it was given; a rejected write raises
    the fault and leaves the cached timeout as it was. *)
Theorem transaction_timeout_contract {R} (T : Transport R) (s : St R) :
  (forall (n : Z) (r1 r2 : R),
     wsdl_set_transaction_timeout T n (remote s) = (Ok tt, r1) ->
     wsdl_get_transaction_timeout T r1 = (Ok n, r2) ->
     (transaction_timeout_setter T n ;;; transaction_timeout_getter T) s
     = (Ok n,
        mkSt (with_transaction_timeout n (self s)) r2
             (trace s ++ [SetTransactionTimeout n; GetTransactionTimeout])))
  /\
  (forall (n : Z) (e : exn) (r1 : R),
     wsdl_set_transaction_timeout T n (remote s) = (Raise e, r1) ->
     transaction_timeout_setter T n s
     = (Raise e, mkSt (self s) r1 (trace s ++ [SetTransactionTimeout n]))).
Proof.
  split.
  - intros n r1 r2 Hset Hget.
    unfold transaction_timeout_setter, transaction_timeout_getter,
      _set_transaction_timeout, _get_transaction_timeout, bind, invoke,
      assign, get_self, ret.
    rewrite Hset. simpl. rewrite Hget. simpl.
    rewrite <- app_assoc. reflexivity.
  - intros n e r1 Hset.
    unfold transaction_timeout_setter, _set_transaction_timeout, bind,
      invoke.
    rewrite Hset. reflexivity.
Qed.

Lemma transaction_timeout_contract_witness :
  (transaction_timeout_setter BigIP.endpoint 30 ;;;
   transaction_timeout_getter BigIP.endpoint)
    (BigIP.session BigIP.lb_idle BigIP.idle)
  = (Ok 30%Z,
     mkSt (with_transaction_timeout 30 BigIP.lb_idle)
          (BigIP.set_timeout 30 BigIP.idle)
          [SetTransactionTimeout 30; GetTransactionTimeout]).
Proof.
  apply (proj1 (transaction_timeout_contract BigIP.endpoint
                  (BigIP.session BigIP.lb_idle BigIP.idle))
           30%Z (BigIP.set_timeout 30 BigIP.idle));
    reflexivity.
Defined.

(** ** The transaction setter *)

(** X3: Assigning to [transaction] a value that [==] neither True nor False is
    silently ignored: no remote call, no change, no exception.  A value
    [==] True issues exactly one start_transaction, a value [==] False
    exactly one rollback_transaction; and whenever the setter raises, the
    session object is as it was. *)
Theorem transaction_setter_contract {R} (T : Transport R) (v : PyVal)
    (s : St R) :
  (py_eq v (PyBool true) = false -> py_eq v (PyBool false) = false ->
   transaction_setter T v s = (Ok tt, s))
  /\
  (py_eq v (PyBool true) = true ->
   trace (snd (transaction_setter T v s)) = trace s ++ [StartTransaction])
  /\
  (py_eq v (PyBool true) = false -> py_eq v (PyBool false) = true ->
   trace (snd (transaction_setter T v s))
   = trace s ++ [RollbackTransaction])
  /\
  (forall (e : exn) (s' : St R),
     transaction_setter T v s = (Raise e, s') -> self s' = self s).
Proof.
  unfold transaction_setter, _ensure_transaction, _ensure_no_transaction,
    try_except, bind, invoke, assign, ret, raise.
  repeat match goal with |- _ /\ _ => split end.
  - intros -> ->. reflexivity.
  - intros ->.
    destruct (wsdl_start_transaction T (remote s)) as [[[] | e] r1];
      [reflexivity | ].
    destruct e as [message | | | | | ]; try reflexivity.
    destruct (str_in _ message); reflexivity.
  - intros -> ->.
    destruct (wsdl_rollback_transaction T (remote s)) as [[[] | e] r1];
      [reflexivity | ].
    destruct e as [message | | | | | ]; try reflexivity.
    destruct (str_in _ message); reflexivity.
  - intros e s'.
    destruct (py_eq v (PyBool true)); [ | destruct (py_eq v (PyBool false))].
    + destruct (wsdl_start_transaction T (remote s)) as [[[] | e0] r1];
        [discriminate | ].
      destruct e0 as [message | | | | | ];
        try (intros [= <- <-]; reflexivity).
      destruct (str_in _ message);
        [discriminate | intros [= <- <-]; reflexivity].
    + destruct (wsdl_rollback_transaction T (remote s)) as [[[] | e0] r1];
        [discriminate | ].
      destruct e0 as [message | | | | | ];
        try (intros [= <- <-]; reflexivity).
      destruct (str_in _ message);
        [discriminate | intros [= <- <-]; reflexivity].
    + discriminate.
Qed.

Lemma transaction_setter_contract_witness :
  transaction_setter BigIP.endpoint PyNone
    (BigIP.session BigIP.lb_idle BigIP.idle)
  = (Ok tt, BigIP.session BigIP.lb_idle BigIP.idle)
  /\
  trace (snd (transaction_setter BigIP.endpoint (PyInt 1)
                (BigIP.session BigIP.lb_idle BigIP.idle)))
  = [] ++ [StartTransaction].
Proof.
  split.
  - apply (proj1 (transaction_setter_contract BigIP.endpoint PyNone
                    (BigIP.session BigIP.lb_idle BigIP.idle)));
      reflexivity.
  - apply (proj1 (proj2 (transaction_setter_contract BigIP.endpoint (PyInt 1)
                           (BigIP.session BigIP.lb_idle BigIP.idle)))).
    reflexivity.
Defined.

(** ** More on the scoping decorators *)

Lemma recursive_query_setter_accepts {R} (T : Transport R) (v : PyVal)
    (s : St R) :
  (forall q r, fst (wsdl_set_recursive_query_state T q r) = Ok tt) ->
  py_eq v (PyBool true) || py_eq v (PyBool false) = true ->
  exists r1 q,
    recursive_query_setter T v s
    = (Ok tt, mkSt (with_recursive_query v (self s)) r1
                   (trace s ++ [SetRecursiveQueryState q])).
Proof.
  intros Hstate Hbool.
  unfold recursive_query_setter, _set_recursive_query_state, bind, invoke,
    assign, ret, raise.
  destruct (py_eq v (PyBool true)); simpl.
  - specialize (Hstate "STATE_ENABLED" (remote s)).
    destruct (wsdl_set_recursive_query_state T "STATE_ENABLED" (remote s))
      as [[[] | e1] r1]; simpl in *; [eauto | discriminate].
  - destruct (py_eq v (PyBool false)); simpl in *; [ | discriminate].
    specialize (Hstate "STATE_DISABLED" (remote s)).
    destruct (wsdl_set_recursive_query_state T "STATE_DISABLED" (remote s))
      as [[[] | e1] r1]; simpl in *; [eauto | discriminate].
Qed.

Lemma active_folder_setter_accepts {R} (T : Transport R) (p : string)
    (s : St R) :
  (forall p r, fst (wsdl_set_active_folder T p r) = Ok tt) ->
  exists r1,
    active_folder_setter T p s
    = (Ok tt, mkSt (with_active_folder p (self s)) r1
                   (trace s ++ [SetActiveFolder p])).
Proof.
  intros Hfolder. rewrite active_folder_setter_run.
  specialize (Hfolder p (remote s)).
  destruct (wsdl_set_active_folder T p (remote s)) as [[[] | e] r1];
    simpl in *; [eauto | discriminate].
Qed.

(** X4: The wrapper writes nothing back when nothing changed: if the body
    returns with the cached folder and flag equal to the snapshot, the
    wrapped call is the body - same value, same state, no further remote
    call.  The same holds for a recursive read on a session that is
    already at / with recursion on. *)
Theorem restore_session_values_leaves_untouched {R} (T : Transport R)
    (func : M R PyVal) (s s1 : St R) (v : PyVal) :
  func s = (Ok v, s1) ->
  _active_folder (self s1) = _active_folder (self s) ->
  py_eq (_recursive_query (self s1)) (_recursive_query (self s)) = true ->
  restore_session_values T func s = (Ok v, s1)
  /\
  (_active_folder (self s) = "/" ->
   py_eq (_recursive_query (self s)) (PyBool true) = true ->
   recursivereader T func s = (Ok v, s1)).
Proof.
  intros Hf Hfolder Hflag.
  assert (Hr : restore_session_values T func s = (Ok v, s1)).
  { unfold restore_session_values, bind, get_self. rewrite Hf. simpl.
    rewrite Hfolder, String.eqb_refl. simpl. rewrite Hflag. reflexivity. }
  split; [exact Hr | ].
  intros Hroot Htrue. rewrite <- Hr.
  unfold recursivereader, restore_session_values, bind, get_self. simpl.
  rewrite Hroot. simpl. rewrite Htrue. reflexivity.
Qed.

Lemma restore_session_values_leaves_untouched_witness :
  restore_session_values BigIP.endpoint BigIP.answers
    (BigIP.session BigIP.lb_idle BigIP.idle)
  = (Ok (PyInt 42), BigIP.session BigIP.lb_idle BigIP.idle)
  /\
  recursivereader BigIP.endpoint BigIP.answers
    (BigIP.session
       (with_recursive_query (PyBool true)
          (with_active_folder "/" BigIP.lb_idle))
       BigIP.idle)
  = (Ok (PyInt 42),
     BigIP.session
       (with_recursive_query (PyBool true)
          (with_active_folder "/" BigIP.lb_idle))
       BigIP.idle).
Proof.
  split.
  - apply (proj1 (restore_session_values_leaves_untouched BigIP.endpoint
                    BigIP.answers (BigIP.session BigIP.lb_idle BigIP.idle)
                    (BigIP.session BigIP.lb_idle BigIP.idle) (PyInt 42)
                    eq_refl eq_refl eq_refl)).
  - apply (proj2 (restore_session_values_leaves_untouched BigIP.endpoint
                    BigIP.answers
                    (BigIP.session
                       (with_recursive_query (PyBool true)
                          (with_active_folder "/" BigIP.lb_idle))
                       BigIP.idle)
                    (BigIP.session
                       (with_recursive_query (PyBool true)
                          (with_active_folder "/" BigIP.lb_idle))
                       BigIP.idle)
                    (PyInt 42) eq_refl eq_refl eq_refl));
      reflexivity.
Defined.

(** X5: A failed write-back is not contained: when the body changed the
    cached folder and the endpoint rejects writing the snapshot back, the
    fault reaches the caller, the body's value is lost, the cached folder
    stays the body's, and the flag is not written back at all. *)
Theorem restore_session_values_write_back_fault {R} (T : Transport R)
    (func : M R PyVal) (s s1 : St R) (v : PyVal) (e : exn) (r1 : R) :
  func s = (Ok v, s1) ->
  _active_folder (self s1) <> _active_folder (self s) ->
  wsdl_set_active_folder T (_active_folder (self s)) (remote s1)
    = (Raise e, r1) ->
  restore_session_values T func s
  = (Raise e,
     mkSt (self s1) r1
          (trace s1 ++ [SetActiveFolder (_active_folder (self s))])).
Proof.
  intros Hf Hne Hset. apply String.eqb_neq in Hne.
  unfold restore_session_values, bind, get_self. rewrite Hf. simpl.
  rewrite Hne. simpl. rewrite active_folder_setter_run, Hset. reflexivity.
Qed.

Lemma restore_session_values_write_back_fault_witness :
  restore_session_values
    {| wsdl_get_version := wsdl_get_version BigIP.endpoint;
       wsdl_get_active_folder := wsdl_get_active_folder BigIP.endpoint;
       wsdl_set_active_folder :=
         fun p a =>
           if String.eqb p "/Common"
           then (Raise (ServerError "folder not found"), a)
           else wsdl_set_active_folder BigIP.endpoint p a;
       wsdl_get_recursive_query_state :=
         wsdl_get_recursive_query_state BigIP.endpoint;
       wsdl_set_recursive_query_state :=
         wsdl_set_recursive_query_state BigIP.endpoint;
       wsdl_start_transaction := wsdl_start_transaction BigIP.endpoint;
       wsdl_submit_transaction := wsdl_submit_transaction BigIP.endpoint;
       wsdl_rollback_transaction := wsdl_rollback_transaction BigIP.endpoint;
       wsdl_get_transaction_timeout :=
         wsdl_get_transaction_timeout BigIP.endpoint;
       wsdl_set_transaction_timeout :=
         wsdl_set_transaction_timeout BigIP.endpoint |}
    (assign (with_active_folder "/") ;;; assign (with_recursive_query PyNone)
     ;;; ret (PyInt 42))
    (BigIP.session BigIP.lb_idle BigIP.idle)
  = (Raise (ServerError "folder not found"),
     mkSt (with_recursive_query PyNone (with_active_folder "/" BigIP.lb_idle))
          BigIP.idle [SetActiveFolder "/Common"]).
Proof.
  apply (restore_session_values_write_back_fault _ _
           (BigIP.session BigIP.lb_idle BigIP.idle)
           (mkSt (with_recursive_query PyNone
                    (with_active_folder "/" BigIP.lb_idle))
                 BigIP.idle [])
           (PyInt 42)).
  - reflexivity.
  - discriminate.
  - reflexivity.
Defined.

(** X6: A recursive read runs its body on a session whose cached folder is /
    and whose cached flag is True: on an endpoint that accepts the writes,
    whatever the body reads of the session object it reads from such an
    object, and the wrapped call returns what the body computed. *)
Theorem recursivereader_body_sees_root {R} (T : Transport R) (s : St R) :
  (forall p r, fst (wsdl_set_active_folder T p r) = Ok tt) ->
  (forall q r, fst (wsdl_set_recursive_query_state T q r) = Ok tt) ->
  py_eq (_recursive_query (self s)) (PyBool true)
    || py_eq (_recursive_query (self s)) (PyBool false) = true ->
  exists o0 : Lb,
    _active_folder o0 = "/" /\
    py_eq (_recursive_query o0) (PyBool true) = true /\
    forall observe : Lb -> PyVal,
      fst (recursivereader T (o <- get_self ;; ret (observe o)) s)
      = Ok (observe o0).
Proof.
  intros Hfolder Hstate Hbool.
  assert (Hsym : forall v, py_eq v (PyBool true) = false ->
                           py_eq (PyBool true) v = false).
  { intros [ | [ | ] | z | t | items text]; simpl; trivial.
    rewrite Z.eqb_sym. trivial. }
  assert (Hrestore : forall st : St R, exists r1 q,
             recursive_query_setter T (_recursive_query (self s)) st
             = (Ok tt, mkSt (with_recursive_query (_recursive_query (self s))
                               (self st)) r1
                            (trace st ++ [SetRecursiveQueryState q]))).
  { intros st. now apply recursive_query_setter_accepts. }
  unfold recursivereader, restore_session_values.
  destruct (String.eqb (_active_folder (self s)) "/") eqn:Ef;
    destruct (py_eq (_recursive_query (self s)) (PyBool true)) eqn:Eq.
  - (* already at / with recursion on *)
    exists (self s). apply String.eqb_eq in Ef.
    repeat split; trivial. intros observe.
    unfold bind, get_self, ret.
    repeat (cbn -[py_eq String.eqb];
            rewrite ?String.eqb_refl, ?py_eq_refl, ?Ef, ?Eq). reflexivity.
  - (* the flag is forced *)
    exists (with_recursive_query (PyBool true) (self s)).
    apply String.eqb_eq in Ef. repeat split; trivial. intros observe.
    unfold bind, get_self, ret.
    repeat (cbn -[py_eq String.eqb];
            rewrite ?String.eqb_refl, ?py_eq_refl, ?Ef, ?Eq).
    rewrite recursive_query_setter_run.
    pose proof (Hstate "STATE_ENABLED" (remote s)) as H1.
    destruct (wsdl_set_recursive_query_state T "STATE_ENABLED" (remote s))
      as [[[] | e1] r1]; simpl in H1; [ | discriminate].
    repeat (cbn -[py_eq String.eqb];
            rewrite ?String.eqb_refl, ?py_eq_refl, ?Ef, ?(Hsym _ Eq)).
    match goal with
    | |- context [recursive_query_setter T ?v ?st] =>
        destruct (Hrestore st)
          as (r2 & q & E2); rewrite E2
    end.
    reflexivity.
  - (* the folder is forced *)
    exists (with_active_folder "/" (self s)).
    repeat split; trivial. intros observe.
    assert (Ef' : String.eqb "/" (_active_folder (self s)) = false).
    { rewrite String.eqb_sym. exact Ef. }
    unfold bind, get_self, ret.
    repeat (cbn -[py_eq String.eqb];
            rewrite ?String.eqb_refl, ?py_eq_refl, ?Ef, ?Eq).
    destruct (active_folder_setter_accepts T "/" s Hfolder) as (r1 & E1).
    rewrite E1.
    repeat (cbn -[py_eq String.eqb];
            rewrite ?String.eqb_refl, ?py_eq_refl, ?Ef', ?Eq).
    match goal with
    | |- context [active_folder_setter T ?p ?st] =>
        destruct (active_folder_setter_accepts T p st Hfolder) as (r2 & E2);
          rewrite E2
    end.
    repeat (cbn -[py_eq String.eqb];
            rewrite ?String.eqb_refl, ?py_eq_refl). reflexivity.
  - (* both are forced *)
    exists (with_recursive_query (PyBool true)
              (with_active_folder "/" (self s))).
    repeat split; trivial. intros observe.
    assert (Ef' : String.eqb "/" (_active_folder (self s)) = false).
    { rewrite String.eqb_sym. exact Ef. }
    unfold bind, get_self, ret.
    repeat (cbn -[py_eq String.eqb];
            rewrite ?String.eqb_refl, ?py_eq_refl, ?Ef, ?Eq).
    destruct (active_folder_setter_accepts T "/" s Hfolder) as (r1 & E1).
    rewrite E1.
    repeat (cbn -[py_eq String.eqb];
            rewrite ?String.eqb_refl, ?py_eq_refl, ?Eq).
    rewrite recursive_query_setter_run. cbn -[py_eq String.eqb].
    pose proof (Hstate "STATE_ENABLED" r1) as H1.
    destruct (wsdl_set_recursive_query_state T "STATE_ENABLED" r1)
      as [[[] | e1] r2]; simpl in H1; [ | discriminate].
    repeat (cbn -[py_eq String.eqb];
            rewrite ?String.eqb_refl, ?py_eq_refl, ?Ef').
    match goal with
    | |- context [active_folder_setter T ?p ?st] =>
        destruct (active_folder_setter_accepts T p st Hfolder) as (r3 & E3);
          rewrite E3
    end.
    repeat (cbn -[py_eq String.eqb];
            rewrite ?String.eqb_refl, ?py_eq_refl, ?(Hsym _ Eq)).
    match goal with
    | |- context [recursive_query_setter T ?v ?st] =>
        destruct (Hrestore st)
          as (r4 & q & E4); rewrite E4
    end.
    reflexivity.
Qed.

Lemma recursivereader_body_sees_root_witness :
  exists o0 : Lb,
    _active_folder o0 = "/" /\
    py_eq (_recursive_query o0) (PyBool true) = true /\
    forall observe : Lb -> PyVal,
      fst (recursivereader BigIP.endpoint
             (o <- get_self ;; ret (observe o))
             (BigIP.session BigIP.lb_idle BigIP.idle))
      = Ok (observe o0).
Proof.
  apply (recursivereader_body_sees_root BigIP.endpoint
           (BigIP.session BigIP.lb_idle BigIP.idle)).
  - intros p r. reflexivity.
  - intros q r. reflexivity.
  - reflexivity.
Defined.

(** X7: When the endpoint rejects the switch to the root folder, a recursive
    read raises that fault without running its body: the outcome is the
    same for every body, and the session object is untouched. *)
Theorem recursivereader_force_fault {R} (T : Transport R) (s : St R)
    (e : exn) (r1 : R) :
  _active_folder (self s) <> "/" ->
  wsdl_set_active_folder T "/" (remote s) = (Raise e, r1) ->
  forall func : M R PyVal,
    recursivereader T func s
    = (Raise e, mkSt (self s) r1 (trace s ++ [SetActiveFolder "/"])).
Proof.
  intros Hne Hset func. apply String.eqb_neq in Hne.
  unfold recursivereader, restore_session_values, bind, get_self.
  cbn -[String.eqb]. rewrite Hne. cbn -[String.eqb].
  rewrite active_folder_setter_run, Hset. reflexivity.
Qed.

Lemma recursivereader_force_fault_witness :
    recursivereader
      {| wsdl_get_version := wsdl_get_version BigIP.endpoint;
         wsdl_get_active_folder := wsdl_get_active_folder BigIP.endpoint;
         wsdl_set_active_folder :=
           fun p a => (Raise (ServerError "access denied"), a);
         wsdl_get_recursive_query_state :=
           wsdl_get_recursive_query_state BigIP.endpoint;
         wsdl_set_recursive_query_state :=
           wsdl_set_recursive_query_state BigIP.endpoint;
         wsdl_start_transaction := wsdl_start_transaction BigIP.endpoint;
         wsdl_submit_transaction := wsdl_submit_transaction BigIP.endpoint;
         wsdl_rollback_transaction :=
           wsdl_rollback_transaction BigIP.endpoint;
         wsdl_get_transaction_timeout :=
           wsdl_get_transaction_timeout BigIP.endpoint;
         wsdl_set_transaction_timeout :=
           wsdl_set_transaction_timeout BigIP.endpoint |}
      BigIP.answers (BigIP.session BigIP.lb_idle BigIP.idle)
    = (Raise (ServerError "access denied"),
       mkSt BigIP.lb_idle BigIP.idle [SetActiveFolder "/"]).
Proof.
  apply (recursivereader_force_fault _
           (BigIP.session BigIP.lb_idle BigIP.idle)).
  - discriminate.
  - reflexivity.
Defined.

(** X8: A write at the root folder runs its body with the cached folder
    /Common and puts / back afterwards: on an endpoint that accepts the
    writes, exactly two folder writes are issued around the body, and the
    wrapped call returns what the body computed. *)
Theorem writer_at_root_runs_body {R} (T : Transport R) (s : St R) :
  _active_folder (self s) = "/" ->
  (forall p r, fst (wsdl_set_active_folder T p r) = Ok tt) ->
  forall observe : Lb -> PyVal,
  exists r2 : R,
    writer T (o <- get_self ;; ret (observe o)) s
    = (Ok (observe (with_active_folder "/Common" (self s))),
       mkSt (with_active_folder "/" (self s)) r2
            (trace s ++ [SetActiveFolder "/Common"; SetActiveFolder "/"])).
Proof.
  intros Hroot Hfolder observe.
  unfold writer, restore_session_values, bind, get_self, ret.
  cbn -[py_eq String.eqb]. rewrite Hroot. cbn -[py_eq].
  destruct (active_folder_setter_accepts T "/Common" s Hfolder) as (r1 & E1).
  rewrite E1. cbn -[py_eq].
  match goal with
  | |- context [active_folder_setter T ?p ?st] =>
      destruct (active_folder_setter_accepts T p st Hfolder) as (r2 & E2);
        rewrite E2
  end.
  cbn -[py_eq]. rewrite py_eq_refl. cbn.
  exists r2. rewrite <- app_assoc. reflexivity.
Qed.

Lemma writer_at_root_runs_body_witness :
  exists r2 : BigIP.Appliance,
    writer BigIP.endpoint
      (o <- get_self ;; ret (PyStr (_active_folder o)))
      (BigIP.session (with_active_folder "/" BigIP.lb_idle)
         (BigIP.set_folder "/" BigIP.idle))
    = (Ok (PyStr "/Common"),
       mkSt (with_active_folder "/" BigIP.lb_idle) r2
            ([] ++ [SetActiveFolder "/Common"; SetActiveFolder "/"])).
Proof.
  apply (writer_at_root_runs_body BigIP.endpoint
           (BigIP.session (with_active_folder "/" BigIP.lb_idle)
              (BigIP.set_folder "/" BigIP.idle))
           eq_refl (fun p r => eq_refl)
           (fun o => PyStr (_active_folder o))).
Defined.

(** ** More on the transaction wrapper *)

(** X9: If the probe raises, or the probe finds no transaction and opening one
    raises, the wrapper raises that exception and the body is not run:
    the outcome is the same for every body. *)
Theorem transaction_wrapper_body_not_run {R} (T : Transport R) (s : St R) :
  (forall (e : exn) (s1 : St R),
     transaction_getter T s = (Raise e, s1) ->
     forall func : M R PyVal, transaction_wrapper T func s = (Raise e, s1))
  /\
  (forall (e : exn) (s1 s2 : St R),
     transaction_getter T s = (Ok false, s1) ->
     transaction_setter T (PyBool true) s1 = (Raise e, s2) ->
     forall func : M R PyVal, transaction_wrapper T func s = (Raise e, s2)).
Proof.
  split.
  - intros e s1 H func. unfold transaction_wrapper, bind. rewrite H.
    reflexivity.
  - intros e s1 s2 H1 H2 func. unfold transaction_wrapper, bind.
    rewrite H1. cbn -[transaction_setter]. rewrite H2. reflexivity.
Qed.

Lemma transaction_wrapper_body_not_run_witness :
    transaction_wrapper
      {| wsdl_get_version := wsdl_get_version BigIP.endpoint;
         wsdl_get_active_folder := wsdl_get_active_folder BigIP.endpoint;
         wsdl_set_active_folder := wsdl_set_active_folder BigIP.endpoint;
         wsdl_get_recursive_query_state :=
           wsdl_get_recursive_query_state BigIP.endpoint;
         wsdl_set_recursive_query_state :=
           wsdl_set_recursive_query_state BigIP.endpoint;
         wsdl_start_transaction :=
           fun a => (Raise (ServerError "Access Denied"), a);
         wsdl_submit_transaction := wsdl_submit_transaction BigIP.endpoint;
         wsdl_rollback_transaction :=
           wsdl_rollback_transaction BigIP.endpoint;
         wsdl_get_transaction_timeout :=
           wsdl_get_transaction_timeout BigIP.endpoint;
         wsdl_set_transaction_timeout :=
           wsdl_set_transaction_timeout BigIP.endpoint |}
      BigIP.answers (BigIP.session BigIP.lb_idle BigIP.idle)
    = (Raise (ServerError "Access Denied"),
       mkSt BigIP.lb_idle BigIP.idle [StartTransaction]).
Proof.
  apply (proj1 (transaction_wrapper_body_not_run _
                  (BigIP.session BigIP.lb_idle BigIP.idle))).
  reflexivity.
Defined.

(** X10: An owning invocation whose body returns issues exactly one more remote
    call, the submit.  If the submit succeeds the wrapper returns None; if
    it raises, that exception reaches the caller.  Either way the session
    object is as the body left it. *)
Theorem transaction_wrapper_commits_once {R} (T : Transport R)
    (func : M R PyVal) (s s1 s2 s3 : St R) (v : PyVal) :
  transaction_getter T s = (Ok false, s1) ->
  transaction_setter T (PyBool true) s1 = (Ok tt, s2) ->
  func s2 = (Ok v, s3) ->
  (forall r4 : R,
     wsdl_submit_transaction T (remote s3) = (Ok tt, r4) ->
     transaction_wrapper T func s
     = (Ok PyNone, mkSt (self s3) r4 (trace s3 ++ [SubmitTransaction])))
  /\
  (forall (e : exn) (r4 : R),
     wsdl_submit_transaction T (remote s3) = (Raise e, r4) ->
     transaction_wrapper T func s
     = (Raise e, mkSt (self s3) r4 (trace s3 ++ [SubmitTransaction]))).
Proof.
  intros H1 H2 H3.
  assert (Hw : transaction_wrapper T func s
               = (_submit_transaction T ;;; ret PyNone) s3).
  { unfold transaction_wrapper, bind, try_except.
    rewrite H1. cbn -[transaction_setter]. rewrite H2, H3. reflexivity. }
  split.
  - intros r4 Hsub. rewrite Hw.
    unfold _submit_transaction, bind, invoke, ret. rewrite Hsub. reflexivity.
  - intros e r4 Hsub. rewrite Hw.
    unfold _submit_transaction, bind, invoke, ret. rewrite Hsub. reflexivity.
Qed.

Lemma transaction_wrapper_commits_once_witness :
  transaction_wrapper BigIP.endpoint BigIP.answers
    (BigIP.session BigIP.lb_idle BigIP.idle)
  = (Ok PyNone,
     mkSt (with_transaction true BigIP.lb_idle) BigIP.idle
          ([StartTransaction; RollbackTransaction; StartTransaction]
             ++ [SubmitTransaction])).
Proof.
  apply (proj1 (transaction_wrapper_commits_once BigIP.endpoint BigIP.answers
                  (BigIP.session BigIP.lb_idle BigIP.idle)
                  (mkSt BigIP.lb_idle BigIP.idle
                        [StartTransaction; RollbackTransaction])
                  (mkSt (with_transaction true BigIP.lb_idle)
                        (BigIP.set_open true BigIP.idle)
                        [StartTransaction; RollbackTransaction;
                         StartTransaction])
                  (mkSt (with_transaction true BigIP.lb_idle)
                        (BigIP.set_open true BigIP.idle)
                        [StartTransaction; RollbackTransaction;
                         StartTransaction])
                  (PyInt 42) eq_refl eq_refl eq_refl)).
  reflexivity.
Defined.

(** ** More on construction *)

(** Case analysis on every answer the endpoint gives during a run that is
    the premise of the goal. *)
Ltac remote_cases T :=
  repeat
    (cbn -[str_in String.eqb String.append app];
     match goal with
     | |- context [wsdl_get_version T ?r] =>
         destruct (wsdl_get_version T r) as [[? | ?] ?] eqn:?
     | |- context [wsdl_get_active_folder T ?r] =>
         destruct (wsdl_get_active_folder T r) as [[? | ?] ?] eqn:?
     | |- context [wsdl_get_recursive_query_state T ?r] =>
         destruct (wsdl_get_recursive_query_state T r) as [[? | ?] ?] eqn:?
     | |- context [wsdl_start_transaction T ?r] =>
         destruct (wsdl_start_transaction T r) as [[[] | ?] ?] eqn:?
     | |- context [wsdl_rollback_transaction T ?r] =>
         destruct (wsdl_rollback_transaction T r) as [[[] | ?] ?] eqn:?
     | |- context [wsdl_get_transaction_timeout T ?r] =>
         destruct (wsdl_get_transaction_timeout T r) as [[? | ?] ?] eqn:?
     | |- context [match ?e with ServerError _ => _ | _ => _ end] =>
         destruct e
     | |- context [if ?c then _ else _] => destruct c eqn:?
     end).

(** X11: What a successful construction guarantees: the credentials given are
    the ones stored (and shown by [__repr__]), the cached recursion flag is
    a boolean, with the version check enabled the endpoint did report a
    BIG-IP_v11 version, and the remote calls issued are exactly the
    version query, the folder and recursion-state reads, the transaction
    probe - with its rollback precisely when no transaction was found
    open - and the timeout read. *)
Theorem Lb_new_postcondition {R} (T : Transport R)
    (host username password : string) (versioncheck : bool) (r : R)
    (s' : St R) :
  Lb_new T host username password versioncheck r = (Ok tt, s') ->
  _host (self s') = host /\
  _username (self s') = username /\
  _versioncheck (self s') = versioncheck /\
  (exists b : bool, _recursive_query (self s') = PyBool b) /\
  (versioncheck = true ->
   exists reported r1,
     wsdl_get_version T r = (Ok reported, r1) /\
     str_in "BIG-IP_v11" reported = true) /\
  trace s'
  = [GetVersion; GetActiveFolder; GetRecursiveQueryState; StartTransaction]
      ++ (if _transaction (self s') then [] else [RollbackTransaction])
      ++ [GetTransactionTimeout] /\
  fst (__repr__ s') = Ok ("f5.Lb('" +:+ host +:+ "')").
Proof.
  unfold Lb_new, __init__, active_folder_getter, recursive_query_getter,
    transaction_getter, transaction_timeout_getter, _active_transaction,
    _get_active_folder, _get_recursive_query_state, _get_transaction_timeout,
    __repr__, try_except, bind, invoke, assign, get_self, ret, raise.
  remote_cases T;
    try discriminate;
    intros [= <-]; cbn -[str_in String.append];
    repeat match goal with |- _ /\ _ => split end;
    try reflexivity; eauto; try discriminate.
  all: intros ->; eexists _, _; split; [reflexivity | ].
  all: match goal with
       | H : true && negb _ = false |- _ =>
           simpl in H; apply negb_false_iff in H; exact H
       end.
Qed.

Lemma Lb_new_postcondition_witness :
  _host BigIP.lb_idle = "lb1" /\
  _username BigIP.lb_idle = "admin" /\
  _versioncheck BigIP.lb_idle = true /\
  (exists b : bool, _recursive_query BigIP.lb_idle = PyBool b) /\
  (true = true ->
   exists reported r1,
     wsdl_get_version BigIP.endpoint BigIP.idle = (Ok reported, r1) /\
     str_in "BIG-IP_v11" reported = true) /\
  [GetVersion; GetActiveFolder; GetRecursiveQueryState; StartTransaction;
   RollbackTransaction; GetTransactionTimeout]
  = [GetVersion; GetActiveFolder; GetRecursiveQueryState; StartTransaction]
      ++ (if _transaction BigIP.lb_idle then [] else [RollbackTransaction])
      ++ [GetTransactionTimeout] /\
  fst (__repr__
         (mkSt BigIP.lb_idle BigIP.idle
            [GetVersion; GetActiveFolder; GetRecursiveQueryState;
             StartTransaction; RollbackTransaction; GetTransactionTimeout]))
  = Ok ("f5.Lb('" +:+ "lb1" +:+ "')").
Proof.
  apply (Lb_new_postcondition BigIP.endpoint "lb1" "admin" "secret" true
           BigIP.idle
           (mkSt BigIP.lb_idle BigIP.idle
              [GetVersion; GetActiveFolder; GetRecursiveQueryState;
               StartTransaction; RollbackTransaction;
               GetTransactionTimeout])).
  reflexivity.
Defined.

(** ** The caches *)

(** X12: Each name-keyed cache returns what was put under a name, keeps the
    entries of other names, answers None when the name was never put, and
    keeps only the later of two entities put under one name. *)
Theorem name_caches_contract {VirtualServer Rule : Type}
    (vs_name : VirtualServer -> string) (rule_name : Rule -> string) :
  ((forall c (x : Node),
      _node_cache_get (_node_cache_put c x) (node_name x) = Some x) /\
   (forall c (x : Node) k, k <> node_name x ->
      _node_cache_get (_node_cache_put c x) k = _node_cache_get c k) /\
   (forall k, _node_cache_get ∅ k = None) /\
   (forall c (x y : Node), node_name x = node_name y ->
      _node_cache_put (_node_cache_put c x) y = _node_cache_put c y))
  /\
  ((forall c (x : Pool),
      _pool_cache_get (_pool_cache_put c x) (pool_name x) = Some x) /\
   (forall c (x : Pool) k, k <> pool_name x ->
      _pool_cache_get (_pool_cache_put c x) k = _pool_cache_get c k) /\
   (forall k, _pool_cache_get ∅ k = None) /\
   (forall c (x y : Pool), pool_name x = pool_name y ->
      _pool_cache_put (_pool_cache_put c x) y = _pool_cache_put c y))
  /\
  ((forall c (x : VirtualServer),
      _vs_cache_get (_vs_cache_put vs_name c x) (vs_name x) = Some x) /\
   (forall c (x : VirtualServer) k, k <> vs_name x ->
      _vs_cache_get (_vs_cache_put vs_name c x) k = _vs_cache_get c k) /\
   (forall k, _vs_cache_get (∅ : gmap string VirtualServer) k = None) /\
   (forall c (x y : VirtualServer), vs_name x = vs_name y ->
      _vs_cache_put vs_name (_vs_cache_put vs_name c x) y
      = _vs_cache_put vs_name c y))
  /\
  ((forall c (x : Rule),
      _rule_cache_get (_rule_cache_put rule_name c x) (rule_name x)
      = Some x) /\
   (forall c (x : Rule) k, k <> rule_name x ->
      _rule_cache_get (_rule_cache_put rule_name c x) k
      = _rule_cache_get c k) /\
   (forall k, _rule_cache_get (∅ : gmap string Rule) k = None) /\
   (forall c (x y : Rule), rule_name x = rule_name y ->
      _rule_cache_put rule_name (_rule_cache_put rule_name c x) y
      = _rule_cache_put rule_name c y)).
Proof.
  unfold _node_cache_get, _node_cache_put, _pool_cache_get, _pool_cache_put,
    _vs_cache_get, _vs_cache_put, _rule_cache_get, _rule_cache_put.
  repeat match goal with |- _ /\ _ => split end; intros.
  all: try (rewrite lookup_insert_eq; reflexivity).
  all: try (rewrite lookup_insert_ne by congruence; reflexivity).
  all: try (rewrite lookup_empty; reflexivity).
  all: match goal with H : _ = _ |- _ => rewrite H end;
    apply insert_insert_eq.
Qed.

Lemma name_caches_contract_witness :
  _pool_cache_get
    (_pool_cache_put (_pool_cache_put ∅ {| pool_name := "web" |})
       {| pool_name := "db" |}) "web"
  = _pool_cache_get (_pool_cache_put ∅ {| pool_name := "web" |}) "web".
Proof.
  apply (proj1 (proj2 (proj1 (proj2
           (name_caches_contract (fun x : unit => "") (fun x : unit => "")))))).
  discriminate.
Defined.

(** X13: A pool member put into the cache is found under its own node name,
    port and pool name; a put leaves every lookup with a different key
    alone; the empty cache answers None; and since the key only holds the
    text of the port, a lookup with the port as a number and one with the
    same port as a string give the same answer. *)
Theorem pm_cache_contract :
  (forall c (pm : PoolMember),
     _pm_cache_get (_pm_cache_put c pm)
       (node_name (node pm)) (port pm) (pool_name (pool pm)) = Some pm)
  /\
  (forall c (pm : PoolMember) n p l,
     pm_key n p l
     <> pm_key (node_name (node pm)) (port pm) (pool_name (pool pm)) ->
     _pm_cache_get (_pm_cache_put c pm) n p l = _pm_cache_get c n p l)
  /\
  (forall n p l, _pm_cache_get ∅ n p l = None)
  /\
  (forall c n (z : Z) l,
     _pm_cache_get c n (PyStr (py_str (PyInt z))) l
     = _pm_cache_get c n (PyInt z) l).
Proof.
  unfold _pm_cache_get, _pm_cache_put.
  repeat match goal with |- _ /\ _ => split end; intros.
  - rewrite lookup_insert_eq. reflexivity.
  - rewrite lookup_insert_ne by congruence. reflexivity.
  - rewrite lookup_empty. reflexivity.
  - reflexivity.
Qed.

Lemma pm_cache_contract_witness :
  _pm_cache_get
    (_pm_cache_put ∅
       {| node := {| node_name := "n1" |}; port := PyInt 80;
          pool := {| pool_name := "web" |} |})
    "n1" (PyInt 443) "web"
  = _pm_cache_get ∅ "n1" (PyInt 443) "web".
Proof.
  apply (proj1 (proj2 pm_cache_contract)). discriminate.
Defined.

(** ** [pools_get_vs] *)

Section PoolsGetVs.

Context {R : Type} {VirtualServer : Type}.
Context (vs_default_pool_name : VirtualServer -> string).
Context (Pool_get_list : M R (list string)).
Context (VirtualServer_get : bool -> M R (list VirtualServer)).
Context (VirtualServer_refresh_default_pool :
           list VirtualServer -> M R (list VirtualServer)).

Lemma empty_lists_lookup (pools : list string) (k : string) :
  @empty_lists VirtualServer pools !! k
  = if decide (k ∈ pools) then Some [] else None.
Proof.
  unfold empty_lists.
  assert (H : forall acc : gmap string (list VirtualServer),
             fold_left (fun result pool => <[pool := []]> result) pools acc
               !! k
             = if decide (k ∈ pools) then Some [] else acc !! k).
  { induction pools as [ | p rest IH]; intros acc; cbn [fold_left].
    - rewrite decide_False by apply not_elem_of_nil. reflexivity.
    - rewrite IH. destruct (decide (k ∈ rest)) as [Hin | Hnot].
      + rewrite decide_True by (right; exact Hin). reflexivity.
      + destruct (decide (k = p)) as [-> | Hne].
        * rewrite decide_True by left. apply lookup_insert_eq.
        * rewrite decide_False
            by (intros [? | ?]%elem_of_cons; contradiction).
          now apply lookup_insert_ne. }
  rewrite H. case_decide; [reflexivity | apply lookup_empty].
Qed.

Lemma for_vs_run (pool : string) (vss : list VirtualServer) :
  forall (result : gmap string (list VirtualServer)) found (s : St R),
    result !! pool = Some found ->
    for_vs vs_default_pool_name pool vss result s
    = (Ok (<[pool := found ++ (filter (fun vs => pool = vs_default_pool_name vs) vss)]> result), s).
Proof.
  induction vss as [ | vs rest IH]; intros result found s Hfound; simpl.
  - rewrite app_nil_r, insert_id by exact Hfound. reflexivity.
  - rewrite filter_cons.
    destruct (String.eqb pool (vs_default_pool_name vs)) eqn:E.
    + apply String.eqb_eq in E. rewrite decide_True by exact E.
      rewrite Hfound.
      rewrite (IH _ (found ++ [vs])) by apply lookup_insert_eq.
      rewrite insert_insert_eq, <- app_assoc. reflexivity.
    + apply String.eqb_neq in E. rewrite decide_False by exact E.
      now apply IH.
Qed.

Lemma for_pool_run (vss : list VirtualServer) (pools : list string) :
  forall (result : gmap string (list VirtualServer)) (s : St R),
    (forall p, p ∈ pools -> is_Some (result !! p)) ->
    exists result',
      for_pool vs_default_pool_name pools vss result s = (Ok result', s) /\
      forall k,
        result' !! k
        = (fun found =>
             found ++ concat (replicate (length (filter (fun p : string => p = k) pools)) (filter (fun vs => k = vs_default_pool_name vs) vss)))
            <$> result !! k.
Proof.
  induction pools as [ | p rest IH]; intros result s Hkeys; simpl.
  - exists result. split; [reflexivity | ]. intros k.
    destruct (result !! k) as [found | ]; simpl; [ | reflexivity].
    now rewrite app_nil_r.
  - destruct (Hkeys p) as [found Hfound]; [left | ].
    unfold bind. rewrite (for_vs_run p vss result found s Hfound).
    destruct (IH (<[p := found ++ (filter (fun vs => p = vs_default_pool_name vs) vss)]> result) s)
      as (result' & Hrun & Hlookup).
    { intros q Hq. destruct (decide (p = q)) as [<- | Hne].
      - rewrite lookup_insert_eq. eauto.
      - rewrite lookup_insert_ne by exact Hne. apply Hkeys. now right. }
    exists result'. split; [exact Hrun | ]. intros k. rewrite Hlookup.
    rewrite filter_cons. destruct (decide (p = k)) as [<- | Hne].
    + rewrite lookup_insert_eq, Hfound. simpl.
      rewrite <- app_assoc. reflexivity.
    + rewrite lookup_insert_ne by exact Hne. reflexivity.
Qed.

Lemma occurrences_absent (pools : list string) (k : string) :
  k ∉ pools -> length (filter (fun p : string => p = k) pools) = 0.
Proof.
  induction pools as [ | p rest IH]; intros Hnot; [reflexivity | ].
  apply not_elem_of_cons in Hnot as [Hne Hnot].
  rewrite filter_cons, decide_False by congruence. now apply IH.
Qed.

Lemma occurrences_NoDup (pools : list string) (k : string) :
  NoDup pools -> k ∈ pools ->
  length (filter (fun p : string => p = k) pools) = 1.
Proof.
  induction 1 as [ | p rest Hnot Hnd IH]; intros Hin.
  - now apply elem_of_nil in Hin.
  - rewrite filter_cons. apply elem_of_cons in Hin as [-> | Hin].
    + rewrite decide_True by reflexivity. simpl. f_equal.
      now apply occurrences_absent.
    + rewrite decide_False by (intros ->; contradiction). now apply IH.
Qed.

(** X14: For a non-empty list of pool names, [pools_get_vs] returns a dict
    whose keys are exactly the requested names.  Under each name it holds
    the fetched virtual servers whose default pool has that name, in the
    order fetched - once when the name was requested once, and repeated
    as many times as the name occurs in the request otherwise. *)
Theorem pools_get_vs_result (names : list string) (minimal : bool)
    (vss : list VirtualServer) (s s1 : St R) :
  names <> [] ->
  (fetched <- VirtualServer_get minimal ;;
   if minimal then VirtualServer_refresh_default_pool fetched
   else ret fetched) s = (Ok vss, s1) ->
  exists result,
    pools_get_vs vs_default_pool_name Pool_get_list
    VirtualServer_get VirtualServer_refresh_default_pool
    (Some (PoolNames names)) minimal s = (Ok result, s1) /\
    (forall k,
       result !! k
       = if decide (k ∈ names)
         then Some (concat (replicate (length (filter (fun p : string => p = k) names)) (filter (fun vs => k = vs_default_pool_name vs) vss)))
         else None) /\
    (NoDup names ->
     forall k, k ∈ names -> result !! k = Some (filter (fun vs => k = vs_default_pool_name vs) vss)).
Proof.
  intros Hne Hfetch.
  destruct (for_pool_run vss names (empty_lists names) s1)
    as (result & Hrun & Hlookup).
  { intros p Hp. rewrite empty_lists_lookup, decide_True by exact Hp.
    eauto. }
  assert (Hall : forall k,
             result !! k
             = if decide (k ∈ names)
               then Some (concat (replicate (length (filter (fun p : string => p = k) names))
                                    (filter (fun vs => k = vs_default_pool_name vs) vss)))
               else None).
  { intros k. rewrite Hlookup, empty_lists_lookup.
    case_decide; reflexivity. }
  exists result. split; [ | split].
  - unfold pools_get_vs. destruct names as [ | n rest]; [congruence | ].
    unfold bind at 1. unfold ret at 1.
    unfold bind in Hfetch. unfold bind.
    destruct (VirtualServer_get minimal s) as [[fetched | e] s0];
      [ | discriminate].
    destruct minimal.
    + destruct (VirtualServer_refresh_default_pool fetched s0)
        as [[refreshed | e] s2]; [ | discriminate].
      injection Hfetch as -> ->. exact Hrun.
    + unfold ret in Hfetch. injection Hfetch as -> ->. exact Hrun.
  - exact Hall.
  - intros Hnd k Hin. rewrite Hall, decide_True by exact Hin.
    rewrite (occurrences_NoDup names k Hnd Hin). simpl.
    now rewrite app_nil_r.
Qed.

(** X15: The two other forms of the argument.  An empty list, of names or of
    pool objects, raises IndexError before anything is fetched; a list of
    pool objects behaves as the list of their names; with no argument the
    names come from [Pool._get_list], and an empty answer there gives an
    empty dict, not an error. *)
Theorem pools_get_vs_argument (minimal : bool) (s : St R) :
  pools_get_vs vs_default_pool_name Pool_get_list
    VirtualServer_get VirtualServer_refresh_default_pool
    (Some (PoolNames [])) minimal s = (Raise (OtherError "IndexError"), s)
  /\
  pools_get_vs vs_default_pool_name Pool_get_list
    VirtualServer_get VirtualServer_refresh_default_pool
    (Some (PoolObjects [])) minimal s
  = (Raise (OtherError "IndexError"), s)
  /\
  (forall objects : list Pool,
     pools_get_vs vs_default_pool_name Pool_get_list
    VirtualServer_get VirtualServer_refresh_default_pool
    (Some (PoolObjects objects)) minimal s
     = pools_get_vs vs_default_pool_name Pool_get_list
    VirtualServer_get VirtualServer_refresh_default_pool
    (Some (PoolNames (map pool_name objects))) minimal s)
  /\
  (forall (names : list string) (s0 : St R),
     names <> [] ->
     Pool_get_list s = (Ok names, s0) ->
     pools_get_vs vs_default_pool_name Pool_get_list
    VirtualServer_get VirtualServer_refresh_default_pool
    None minimal s = pools_get_vs vs_default_pool_name Pool_get_list
    VirtualServer_get VirtualServer_refresh_default_pool
    (Some (PoolNames names)) minimal s0)
  /\
  (forall (vss : list VirtualServer) (s0 s1 : St R),
     Pool_get_list s = (Ok [], s0) ->
     (fetched <- VirtualServer_get minimal ;;
      if minimal then VirtualServer_refresh_default_pool fetched
      else ret fetched) s0 = (Ok vss, s1) ->
     pools_get_vs vs_default_pool_name Pool_get_list
    VirtualServer_get VirtualServer_refresh_default_pool
    None minimal s = (Ok ∅, s1)).
Proof.
  repeat match goal with |- _ /\ _ => split end.
  - reflexivity.
  - reflexivity.
  - intros [ | o rest]; reflexivity.
  - intros names s0 Hne Hlist. unfold pools_get_vs.
    unfold bind at 1. rewrite Hlist.
    destruct names as [ | n rest]; [congruence | ]. reflexivity.
  - intros vss s0 s1 Hlist Hfetch. unfold pools_get_vs.
    unfold bind at 1. rewrite Hlist.
    unfold bind in Hfetch. unfold bind.
    destruct (VirtualServer_get minimal s0) as [[fetched | e] s2];
      [ | discriminate].
    destruct minimal.
    + destruct (VirtualServer_refresh_default_pool fetched s2)
        as [[refreshed | e] s3]; [ | discriminate].
      injection Hfetch as -> ->. reflexivity.
    + unfold ret in Hfetch. injection Hfetch as -> ->. reflexivity.
Qed.

End PoolsGetVs.

Lemma pools_get_vs_result_witness :
  exists result,
    pools_get_vs (snd : string * string -> string)
      (ret ["web"; "db"])
      (fun _ => ret [("vs1", "web"); ("vs2", "db"); ("vs3", "web")])
      (fun vss => ret vss)
      (Some (PoolNames ["web"; "db"])) false
      (BigIP.session BigIP.lb_idle BigIP.idle)
    = (Ok result, BigIP.session BigIP.lb_idle BigIP.idle) /\
    (forall k,
       result !! k
       = if decide (k ∈ ["web"; "db"])
         then Some (concat
                      (replicate
                         (length (filter (fun p : string => p = k)
                                    ["web"; "db"]))
                         (filter (fun vs : string * string => k = snd vs)
                            [("vs1", "web"); ("vs2", "db");
                             ("vs3", "web")])))
         else None) /\
    (NoDup ["web"; "db"] ->
     forall k, k ∈ ["web"; "db"] ->
       result !! k
       = Some (filter (fun vs : string * string => k = snd vs)
                 [("vs1", "web"); ("vs2", "db"); ("vs3", "web")])).
Proof.
  apply (pools_get_vs_result (snd : string * string -> string)
           (ret ["web"; "db"])
           (fun _ => ret [("vs1", "web"); ("vs2", "db"); ("vs3", "web")])
           (fun vss => ret vss)
           ["web"; "db"] false
           [("vs1", "web"); ("vs2", "db"); ("vs3", "web")]
           (BigIP.session BigIP.lb_idle BigIP.idle)
           (BigIP.session BigIP.lb_idle BigIP.idle)).
  - discriminate.
  - reflexivity.
Defined.

Lemma pools_get_vs_argument_witness :
  pools_get_vs (snd : string * string -> string)
    (ret ["web"; "db"])
    (fun _ => ret [("vs1", "web"); ("vs2", "db"); ("vs3", "web")])
    (fun vss => ret vss)
    None true (BigIP.session BigIP.lb_idle BigIP.idle)
  = pools_get_vs (snd : string * string -> string)
      (ret ["web"; "db"])
      (fun _ => ret [("vs1", "web"); ("vs2", "db"); ("vs3", "web")])
      (fun vss => ret vss)
      (Some (PoolNames ["web"; "db"])) true
      (BigIP.session BigIP.lb_idle BigIP.idle).
Proof.
  exact (proj1 (proj2 (proj2 (proj2
           (pools_get_vs_argument (snd : string * string -> string)
              (ret ["web"; "db"])
              (fun _ => ret [("vs1", "web"); ("vs2", "db"); ("vs3", "web")])
              (fun vss => ret vss)
              true (BigIP.session BigIP.lb_idle BigIP.idle)))))
           ["web"; "db"] (BigIP.session BigIP.lb_idle BigIP.idle)
           ltac:(discriminate) eq_refl).
Defined.

(** ** What the decorators never issue *)

Ltac issues_frame :=
  repeat
    first
      [ assumption
      | apply issues_ret | apply issues_raise | apply issues_get_self
      | apply issues_assign
      | apply issues_invoke; solve [auto]
      | apply issues_bind | apply issues_try_except
      | progress cbv zeta
      | match goal with
        | |- forall _, _ => intro
        | |- issues _ (match ?x with _ => _ end) => destruct x
        end ].

(** X16: The scoping decorators add only folder and recursion-state writes to
    the remote calls of the body: for any class of calls that contains
    those writes and everything the body issues, the decorated method
    issues calls of that class only, on every path.  In particular they
    never start, submit or roll back a transaction unless the body does. *)
Theorem scoping_decorators_issue_only_writes {R} (T : Transport R)
    (P : Call -> Prop) (func : M R PyVal) :
  (forall p, P (SetActiveFolder p)) ->
  (forall q, P (SetRecursiveQueryState q)) ->
  issues P func ->
  issues P (restore_session_values T func) /\
  issues P (recursivereader T func) /\
  issues P (writer T func).
Proof.
  intros Hfolder Hstate Hfunc.
  unfold recursivereader, writer, restore_session_values,
    active_folder_setter, recursive_query_setter, _set_active_folder,
    _set_recursive_query_state.
  repeat split; issues_frame.
Qed.

Lemma scoping_decorators_issue_only_writes_witness :
  issues (fun c => c <> StartTransaction /\ c <> SubmitTransaction
                   /\ c <> RollbackTransaction)
    (restore_session_values BigIP.endpoint BigIP.answers) /\
  issues (fun c => c <> StartTransaction /\ c <> SubmitTransaction
                   /\ c <> RollbackTransaction)
    (recursivereader BigIP.endpoint BigIP.answers) /\
  issues (fun c => c <> StartTransaction /\ c <> SubmitTransaction
                   /\ c <> RollbackTransaction)
    (writer BigIP.endpoint BigIP.answers).
Proof.
  apply (scoping_decorators_issue_only_writes BigIP.endpoint
           (fun c => c <> StartTransaction /\ c <> SubmitTransaction
                     /\ c <> RollbackTransaction)
           BigIP.answers).
  - intros p. repeat split; discriminate.
  - intros q. repeat split; discriminate.
  - apply issues_ret.
Defined.

(** X17: The transaction wrapper adds only start, rollback and submit calls to
    the remote calls of the body; it never reads or writes the folder, the
    recursion state, the timeout or the version. *)
Theorem transaction_wrapper_issues_only_transaction_calls {R}
    (T : Transport R) (P : Call -> Prop) (func : M R PyVal) :
  P StartTransaction -> P RollbackTransaction -> P SubmitTransaction ->
  issues P func ->
  issues P (transaction_wrapper T func).
Proof.
  intros Hstart Hrollback Hsubmit Hfunc.
  unfold transaction_wrapper, transaction_getter, transaction_setter,
    _active_transaction, _ensure_transaction, _ensure_no_transaction,
    _submit_transaction.
  issues_frame.
Qed.

Lemma transaction_wrapper_issues_only_transaction_calls_witness :
  issues (fun c => c = StartTransaction \/ c = RollbackTransaction
                   \/ c = SubmitTransaction)
    (transaction_wrapper BigIP.endpoint BigIP.fails).
Proof.
  apply (transaction_wrapper_issues_only_transaction_calls BigIP.endpoint
           (fun c => c = StartTransaction \/ c = RollbackTransaction
                     \/ c = SubmitTransaction)
           BigIP.fails).
  - left. reflexivity.
  - right. left. reflexivity.
  - right. right. reflexivity.
  - apply issues_raise.
Defined.
